(** * Project service of the Freelance time-tracker backend

    A shallow embedding of the project controller (the handlers
    [createProject], [getProjectById], [getAllProjectsOfAUser],
    [getAllProjects], [updateProject], [deleteProject] and
    [addMembersToProject]) together with the part of the document store
    the handlers talk to.

    Handlers are [async] functions that await persistence calls and may
    throw; they are written here in a small state-and-exception monad whose
    state (the collections and the list of persistence calls made so far)
    survives a throw, as it does in JavaScript. *)

From Stdlib Require Import String Ascii List ZArith Bool Lia.
Import ListNotations.
Open Scope string_scope.

(** ** JavaScript values *)

(** An ObjectId in its textual form, as it arrives in [req.params] and as
    [toString()] renders it. *)
Definition ObjectId := string.

(** The values a JSON request body can put in a field, plus ObjectIds. *)
Inductive Value :=
| VUndefined
| VNull
| VBool (b : bool)
| VNum (z : Z)
| VStr (s : string)
| VId (i : ObjectId).

Definition Value_eqb (a b : Value) : bool :=
  match a, b with
  | VUndefined, VUndefined => true
  | VNull, VNull => true
  | VBool x, VBool y => Bool.eqb x y
  | VNum x, VNum y => Z.eqb x y
  | VStr x, VStr y => String.eqb x y
  | VId x, VId y => String.eqb x y
  | _, _ => false
  end.

(** [!v] is [negb (truthy v)]. *)
Definition truthy (v : Value) : bool :=
  match v with
  | VUndefined | VNull => false
  | VBool b => b
  | VNum z => negb (Z.eqb z 0)
  | VStr s => negb (String.eqb s "")
  | VId _ => true
  end.

Definition nullish (v : Value) : bool :=
  match v with
  | VUndefined | VNull => true
  | _ => false
  end.

(** ** String.prototype.trim

    Strings are sequences of one-byte code units; the units below are the
    WhiteSpace and LineTerminator code points of that range (TAB, LF, VT,
    FF, CR, SP, NBSP). *)
Definition isWhiteSpace (c : ascii) : bool :=
  let n := nat_of_ascii c in
  ((9 <=? n)%nat && (n <=? 13)%nat) || (n =? 32)%nat || (n =? 160)%nat.

Fixpoint trimStart (s : string) : string :=
  match s with
  | EmptyString => EmptyString
  | String c r => if isWhiteSpace c then trimStart r else s
  end.

Fixpoint trimEnd (s : string) : string :=
  match s with
  | EmptyString => EmptyString
  | String c r =>
      match trimEnd r with
      | EmptyString => if isWhiteSpace c then EmptyString else String c EmptyString
      | r' => String c r'
      end
  end.

Definition trim (s : string) : string := trimEnd (trimStart s).

(** ** Documents *)

Module User.
Record t := mk { _id : ObjectId }.
End User.

Module Project.
Record t := mk {
  _id : ObjectId;
  name : Value;
  description : Value;
  startDate : Value;
  endDate : Value;
  status : Value;
  totalHours : Z;
  owner : option ObjectId;
  members : list ObjectId
}.
End Project.

Record DB := mkDB {
  projects : list Project.t;
  users : list User.t
}.

(** ** Requests and responses *)

Module Params.
Record t := mk { projectId : string; userId : string }.
End Params.

Module Body.
Record t := mk {
  name : Value;
  description : Value;
  startDate : Value;
  endDate : Value;
  status : Value
}.
End Body.

(** The [$set] document [updateProject] builds from the body. *)
Module SetDoc.
Record t := mk {
  name : Value;
  description : Value;
  startDate : Value;
  endDate : Value;
  status : Value
}.
End SetDoc.

(** [user] is [req.user], set by the authentication middleware. *)
Record Request := mkRequest {
  params : Params.t;
  body : Body.t;
  user : option User.t
}.

(** Every message literal of the controller. *)
Inductive Message :=
| AllFieldsRequired | ProjectNameExists | CreateWentWrong | ProjectCreated
| CreateServerError
| EnterValidProjectId | ProjectNotFound | ProjectFetched | FetchServerError
| ProjectsNotFound | UserProjectsFetched
| NoProjectsFound | AllProjectsFetched
| EnterSomeDetails | NotAuthorizedToChange | UpdateWentWrong | ProjectUpdated
| UpdateServerError
| InvalidObjectId | ProjectNotFoundToDelete | ProjectDeleted
| InvalidProjectOrUserId | ProjectNotFoundToAdd | UserNotFoundToAdd
| NotOwner | AlreadyMember | MemberAdded.

Definition text (m : Message) : string :=
  match m with
  | AllFieldsRequired => "All fields are required"
  | ProjectNameExists => "Project with this name alraeady exists"
  | CreateWentWrong => "Something went wrong while creating project"
  | ProjectCreated => "Project Created Successfully"
  | CreateServerError => "Some server error occurred while creating project"
  | EnterValidProjectId => "Enter valid project Id"
  | ProjectNotFound => "Project Not Found!!"
  | ProjectFetched => "Project Fetched Successfully!! :)"
  | FetchServerError => "Some server error occured while retriving project!! :("
  | ProjectsNotFound => "Projecs not found you need to create project"
  | UserProjectsFetched => "All project of user fetched successfully!!"
  | NoProjectsFound => "No projects found!!"
  | AllProjectsFetched => "All projects fetched successfully!!"
  | EnterSomeDetails => "Enter some details to change/update"
  | NotAuthorizedToChange => "You are not authorized to make changes to this project!!"
  | UpdateWentWrong => "Something went wrong while updating project"
  | ProjectUpdated => "Project updated successfully!!"
  | UpdateServerError => "Some server error occured while updating project!! :("
  | InvalidObjectId => "Invalid objectId or project ID"
  | ProjectNotFoundToDelete => "Project not found to delete"
  | ProjectDeleted => "Project deleted successfully!!"
  | InvalidProjectOrUserId => "Invalid projectId or UserId"
  | ProjectNotFoundToAdd => "Project not found to add members!!"
  | UserNotFoundToAdd => "User not found to add members!!"
  | NotOwner => "You are not the owner of this project, only owner can add members"
  | AlreadyMember => "User is already a member of this project"
  | MemberAdded => "Member added successfully!!"
  end.

(** The JSON key the message is sent under ([MemberAdded] is the third
    argument of [new ApiResponse]). *)
Definition messageKey (m : Message) : string :=
  match m with
  | ProjectNameExists => "mjsg"
  | _ => "msg"
  end.

(** What a response carries besides its message. *)
Inductive Payload :=
| NoData
| OneProject (key : string) (p : Project.t)
| ManyProjects (key : string) (ps : list Project.t)
| ApiResponse (statusCode : Z) (data : Project.t).

Record Response := json {
  statusCode : Z;
  payload : Payload;
  message : Message
}.

Inductive Exn :=
| TypeError
| CastError
| DocumentNotFoundError
| ApiError (statusCode : Z) (m : Message).

(** ** The handler monad *)

Inductive Collection := Projects | Users.

Definition Filter := list (string * Value).

(** Persistence calls, logged in the order they are made. *)
Inductive Call :=
| FindOne (f : Filter)
| Find (f : Filter)
| Create
| FindById (c : Collection) (id : string)
| FindByIdAndUpdate (id : string)
| FindByIdAndDelete (id : string)
| Save (id : ObjectId).

Record World := mkWorld {
  db : DB;
  calls : list Call
}.

Inductive Res (A : Type) :=
| Ret (a : A)
| Throw (e : Exn).
Arguments Ret {A} a.
Arguments Throw {A} e.

Definition M (A : Type) := World -> Res A * World.

Definition ret {A} (a : A) : M A := fun w => (Ret a, w).

Definition throw {A} (e : Exn) : M A := fun w => (Throw e, w).

Definition bind {A B} (m : M A) (k : A -> M B) : M B :=
  fun w =>
    match m w with
    | (Ret a, w') => k a w'
    | (Throw e, w') => (Throw e, w')
    end.

(** [try { m } catch (error) { h error }] *)
Definition tryCatch {A} (m : M A) (h : Exn -> M A) : M A :=
  fun w =>
    match m w with
    | (Ret a, w') => (Ret a, w')
    | (Throw e, w') => h e w'
    end.

Declare Scope handler_scope.
Delimit Scope handler_scope with handler.
Notation "x <- m ;; k" := (bind m (fun x => k))
  (at level 61, m at next level, right associativity) : handler_scope.
Open Scope handler_scope.

Definition getDB : M DB := fun w => (Ret (db w), w).

Definition putProjects (ps : list Project.t) : M unit :=
  fun w => (Ret tt, mkWorld (mkDB ps (users (db w))) (calls w)).

Definition logCall (c : Call) : M unit :=
  fun w => (Ret tt, mkWorld (db w) (calls w ++ [c])).

(** [Array.prototype.some] with a callback that may throw: stops at the
    first element for which the callback answers [true]. *)
Fixpoint some {A} (f : A -> M bool) (l : list A) : M bool :=
  match l with
  | [] => ret false
  | x :: r => b <- f x ;; if b then ret true else some f r
  end.

(** [field.trim()]: only strings have the method. *)
Definition callTrim (field : Value) : M string :=
  match field with
  | VStr s => ret (trim s)
  | _ => throw TypeError
  end.

(** ** The document store

    The handlers reach the store through Mongoose model methods only. The
    library and the schema files are not part of the controller; what the
    handlers rely on is kept as the parameters of this section. *)

Section Controller.

(** [mongoose.isValidObjectId] on a route parameter. *)
Variable isValidObjectId : string -> bool.

(** The [strictQuery] setting: when on, filter keys that are not schema
    paths are dropped from a query. *)
Variable strictQuery : bool.

(** The identifier the store gives to a document it inserts. *)
Variable newObjectId : DB -> ObjectId.

(** The schema default of [status]. *)
Variable defaultStatus : Value.

(** Modelled from the spec: the paths of the Project schema
    (models/project.model.js is not among the sources); the data model
    lists name, description, startDate, endDate, status, totalHours, owner
    and members. *)
Definition schemaPaths : list string :=
  ["_id"; "name"; "description"; "startDate"; "endDate"; "status";
   "totalHours"; "owner"; "members"].

Definition inSchema (k : string) : bool :=
  existsb (String.eqb k) schemaPaths.

(** The value a project document has at a path; [VUndefined] when the
    document has no such field. *)
Definition path (p : Project.t) (k : string) : Value :=
  if k =? "_id" then VId (Project._id p)
  else if k =? "name" then Project.name p
  else if k =? "description" then Project.description p
  else if k =? "startDate" then Project.startDate p
  else if k =? "endDate" then Project.endDate p
  else if k =? "status" then Project.status p
  else if k =? "totalHours" then VNum (Project.totalHours p)
  else if k =? "owner" then
    match Project.owner p with Some o => VId o | None => VUndefined end
  else VUndefined.

(** One equality condition of a filter: an array path matches when the
    array holds the value, a null condition matches a missing field. *)
Definition holds (p : Project.t) (c : string * Value) : bool :=
  let (k, v) := c in
  if k =? "members" then existsb (fun m => Value_eqb (VId m) v) (Project.members p)
  else if nullish v then nullish (path p k)
  else Value_eqb (path p k) v.

Definition castFilter (f : Filter) : Filter :=
  if strictQuery then filter (fun c => inSchema (fst c)) f else f.

Definition matches (f : Filter) (p : Project.t) : bool :=
  forallb (holds p) (castFilter f).

Definition lookupProject (id : ObjectId) (ps : list Project.t) : option Project.t :=
  find (fun p => Project._id p =? id) ps.

Definition lookupUser (id : ObjectId) (us : list User.t) : option User.t :=
  find (fun u => User._id u =? id) us.

Fixpoint updateFirst (id : ObjectId) (f : Project.t -> Project.t)
  (ps : list Project.t) : list Project.t :=
  match ps with
  | [] => []
  | p :: r => if Project._id p =? id then f p :: r else p :: updateFirst id f r
  end.

Fixpoint removeFirst (id : ObjectId) (ps : list Project.t) : list Project.t :=
  match ps with
  | [] => []
  | p :: r => if Project._id p =? id then r else p :: removeFirst id r
  end.

(** A key whose value is [undefined] is left out of an update. *)
Definition setPath (new old : Value) : Value :=
  match new with
  | VUndefined => old
  | _ => new
  end.

Definition applySet (s : SetDoc.t) (p : Project.t) : Project.t :=
  Project.mk (Project._id p)
    (setPath (SetDoc.name s) (Project.name p))
    (setPath (SetDoc.description s) (Project.description p))
    (setPath (SetDoc.startDate s) (Project.startDate p))
    (setPath (SetDoc.endDate s) (Project.endDate p))
    (setPath (SetDoc.status s) (Project.status p))
    (Project.totalHours p) (Project.owner p) (Project.members p).

(** [Project.findOne(filter)] *)
Definition Project_findOne (f : Filter) : M (option Project.t) :=
  _ <- logCall (FindOne f) ;;
  d <- getDB ;;
  ret (find (matches f) (projects d)).

(** [Project.find(filter)] *)
Definition Project_find (f : Filter) : M (list Project.t) :=
  _ <- logCall (Find f) ;;
  d <- getDB ;;
  ret (filter (matches f) (projects d)).

(** [Project.create(doc)]: [members] starts empty, [status] at its
    default; the inserted document is returned. *)
Definition Project_create (name description startDate endDate : Value)
  (owner : option ObjectId) (totalHours : Z) : M (option Project.t) :=
  _ <- logCall Create ;;
  d <- getDB ;;
  let doc := Project.mk (newObjectId d) name description startDate endDate
               defaultStatus totalHours owner [] in
  _ <- putProjects (projects d ++ [doc]) ;;
  ret (Some doc).

(** [Project.findById(id)]: an id that does not cast is a [CastError]. *)
Definition Project_findById (id : string) : M (option Project.t) :=
  _ <- logCall (FindById Projects id) ;;
  if isValidObjectId id then
    d <- getDB ;;
    ret (lookupProject id (projects d))
  else throw CastError.

(** [User.findById(id)] *)
Definition User_findById (id : string) : M (option User.t) :=
  _ <- logCall (FindById Users id) ;;
  if isValidObjectId id then
    d <- getDB ;;
    ret (lookupUser id (users d))
  else throw CastError.

(** [Project.findByIdAndUpdate(id, { $set }, { new: true })] *)
Definition Project_findByIdAndUpdate (id : string) (s : SetDoc.t)
  : M (option Project.t) :=
  _ <- logCall (FindByIdAndUpdate id) ;;
  if isValidObjectId id then
    d <- getDB ;;
    match lookupProject id (projects d) with
    | None => ret None
    | Some p =>
        _ <- putProjects (updateFirst id (applySet s) (projects d)) ;;
        ret (Some (applySet s p))
    end
  else throw CastError.

(** [Project.findByIdAndDelete(id)]: answers the document it removed. *)
Definition Project_findByIdAndDelete (id : string) : M (option Project.t) :=
  _ <- logCall (FindByIdAndDelete id) ;;
  if isValidObjectId id then
    d <- getDB ;;
    match lookupProject id (projects d) with
    | None => ret None
    | Some p =>
        _ <- putProjects (removeFirst id (projects d)) ;;
        ret (Some p)
    end
  else throw CastError.

(** [project.save()] *)
Definition save (p : Project.t) : M unit :=
  _ <- logCall (Save (Project._id p)) ;;
  d <- getDB ;;
  match lookupProject (Project._id p) (projects d) with
  | None => throw DocumentNotFoundError
  | Some _ => putProjects (updateFirst (Project._id p) (fun _ => p) (projects d))
  end.

(** [project.members.push(userId)] on the loaded document. *)
Definition pushMember (userId : ObjectId) (p : Project.t) : Project.t :=
  Project.mk (Project._id p) (Project.name p) (Project.description p)
    (Project.startDate p) (Project.endDate p) (Project.status p)
    (Project.totalHours p) (Project.owner p) (Project.members p ++ [userId]).

(** [project.members.includes(userId)] *)
Definition includes (userId : ObjectId) (ms : list ObjectId) : bool :=
  existsb (String.eqb userId) ms.

(** [x?.toString()] on an optional ObjectId: [None] is [undefined]. *)
Definition toStringOpt (o : option ObjectId) : option string := o.

(** [a !== b] on two optional strings. *)
Definition strictNe (a b : option string) : bool :=
  match a, b with
  | None, None => false
  | Some x, Some y => negb (x =? y)
  | _, _ => true
  end.

(** [req.user?._id] *)
Definition userIdOf (req : Request) : option ObjectId :=
  option_map User._id (user req).

(** ** The handlers *)

Definition createProject (req : Request) : M Response :=
  let name := Body.name (body req) in
  let description := Body.description (body req) in
  let startDate := Body.startDate (body req) in
  let endDate := Body.endDate (body req) in
  let userId := userIdOf req in
  blank <- some (fun field => t <- callTrim field ;; ret (t =? ""))
             [name; description; startDate; endDate] ;;
  if blank then ret (json 400 NoData AllFieldsRequired)
  else
    tryCatch
      (existingProject <- Project_findOne [("name", name)] ;;
       match existingProject with
       | Some _ => ret (json 400 NoData ProjectNameExists)
       | None =>
           newProject <- Project_create name description startDate endDate userId 0 ;;
           match newProject with
           | None => ret (json 401 NoData CreateWentWrong)
           | Some p => ret (json 200 (OneProject "newProject" p) ProjectCreated)
           end
       end)
      (fun _ => ret (json 500 NoData CreateServerError)).

Definition getProjectById (req : Request) : M Response :=
  let projectId := Params.projectId (params req) in
  if negb (isValidObjectId projectId) then
    ret (json 401 NoData EnterValidProjectId)
  else
    tryCatch
      (project <- Project_findById projectId ;;
       match project with
       | None => ret (json 404 NoData ProjectNotFound)
       | Some p => ret (json 200 (OneProject "project" p) ProjectFetched)
       end)
      (fun _ => ret (json 500 NoData FetchServerError)).

(** The filter is the shorthand object [{ userId }]. An array is never
    falsy, so the 400 branches of the two listing handlers are dead. *)
Definition getAllProjectsOfAUser (req : Request) : M Response :=
  let userId := userIdOf req in
  allProjects <- Project_find
    [("userId", match userId with Some i => VId i | None => VUndefined end)] ;;
  ret (json 200 (ManyProjects "allProjects" allProjects) UserProjectsFetched).

Definition getAllProjects (req : Request) : M Response :=
  allProjects <- Project_find [] ;;
  ret (json 200 (ManyProjects "allProjects" allProjects) AllProjectsFetched).

Definition updateProject (req : Request) : M Response :=
  let projectId := Params.projectId (params req) in
  let name := Body.name (body req) in
  let description := Body.description (body req) in
  let startDate := Body.startDate (body req) in
  let endDate := Body.endDate (body req) in
  let status := Body.status (body req) in
  if negb (truthy name) && negb (truthy description) && negb (truthy startDate)
     && negb (truthy endDate) && negb (truthy status)
  then ret (json 400 NoData EnterSomeDetails)
  else
    tryCatch
      (project <- Project_findById projectId ;;
       owner <- match project with
                | None => throw TypeError
                | Some p => ret (toStringOpt (Project.owner p))
                end ;;
       if strictNe owner (toStringOpt (userIdOf req)) then
         ret (json 400 NoData NotAuthorizedToChange)
       else
         updateProject <- Project_findByIdAndUpdate projectId
           (SetDoc.mk name description startDate endDate status) ;;
         match updateProject with
         | None => ret (json 401 NoData UpdateWentWrong)
         | Some p => ret (json 200 (OneProject "updateProject" p) ProjectUpdated)
         end)
      (fun _ => ret (json 500 NoData UpdateServerError)).

Definition deleteProject (req : Request) : M Response :=
  let projectId := Params.projectId (params req) in
  if negb (isValidObjectId projectId) then
    ret (json 401 NoData InvalidObjectId)
  else
    deleteProject <- Project_findByIdAndDelete projectId ;;
    match deleteProject with
    | None => ret (json 404 NoData ProjectNotFoundToDelete)
    | Some p => ret (json 200 (OneProject "deleteProject" p) ProjectDeleted)
    end.

Definition addMembersToProject (req : Request) : M Response :=
  let projectId := Params.projectId (params req) in
  let userId := Params.userId (params req) in
  if negb (isValidObjectId projectId) || negb (isValidObjectId userId) then
    throw (ApiError 401 InvalidProjectOrUserId)
  else
    project <- Project_findById projectId ;;
    match project with
    | None => throw (ApiError 404 ProjectNotFoundToAdd)
    | Some project =>
        user <- User_findById userId ;;
        match user with
        | None => throw (ApiError 404 UserNotFoundToAdd)
        | Some _ =>
            owner <- match Project.owner project with
                     | None => throw TypeError
                     | Some o => ret (Some o)
                     end ;;
            if strictNe owner (toStringOpt (userIdOf req)) then
              throw (ApiError 401 NotOwner)
            else if includes userId (Project.members project) then
              throw (ApiError 401 AlreadyMember)
            else
              let project := pushMember userId project in
              _ <- save project ;;
              ret (json 200 (ApiResponse 200 project) MemberAdded)
        end
    end.

(** A handler run on a request against a store, with an empty call log. *)
Definition run (h : Request -> M Response) (req : Request) (d : DB)
  : Res Response * World :=
  h req (mkWorld d []).

End Controller.

(** ** The error taxonomy

    The taxonomy names kinds of failure; several kinds share a status
    code, so a failure is classified by the message the handler sends. *)

Inductive ErrorKind :=
| ValidationError
| AuthenticationError
| AuthorizationError
| NotFoundError
| ConflictError
| ServerError.

Definition kind (m : Message) : option ErrorKind :=
  match m with
  | AllFieldsRequired | EnterValidProjectId | EnterSomeDetails
  | InvalidObjectId | InvalidProjectOrUserId => Some ValidationError
  | NotAuthorizedToChange | NotOwner => Some AuthorizationError
  | ProjectNotFound | ProjectNotFoundToDelete | ProjectNotFoundToAdd
  | UserNotFoundToAdd | ProjectsNotFound | NoProjectsFound => Some NotFoundError
  | ProjectNameExists | AlreadyMember => Some ConflictError
  | CreateServerError | FetchServerError | UpdateServerError
  | CreateWentWrong | UpdateWentWrong => Some ServerError
  | ProjectCreated | ProjectFetched | UserProjectsFetched | AllProjectsFetched
  | ProjectUpdated | ProjectDeleted | MemberAdded => None
  end.

(** The failure a handler run ends in: the kind of the response it sent or
    of the [ApiError] it threw. A run that sent a success message, or that
    let another exception escape, sent no classified failure. *)
Definition errorOf (r : Res Response) : option ErrorKind :=
  match r with
  | Ret resp => kind (message resp)
  | Throw (ApiError _ m) => kind m
  | Throw _ => None
  end.

(** The run sent a success response. *)
Definition succeeded (r : Res Response) : bool :=
  match r with
  | Ret resp => (statusCode resp =? 200)%Z
  | Throw _ => false
  end.

(** The patch check of [updateProject]: some field of the five is truthy. *)
Definition hasDetails (b : Body.t) : bool :=
  truthy (Body.name b) || truthy (Body.description b)
  || truthy (Body.startDate b) || truthy (Body.endDate b)
  || truthy (Body.status b).

(** A field of the creation body is a string that is not blank. *)
Definition nonBlank (v : Value) : bool :=
  match v with
  | VStr s => negb (trim s =? "")
  | _ => false
  end.

Definition isString (v : Value) : bool :=
  match v with
  | VStr _ => true
  | _ => false
  end.

(** What the blank-field check of [createProject] comes to on a list of
    fields read left to right: [true] at the first blank string, a
    [TypeError] at the first field without a [trim] method. *)
Fixpoint firstBlank (l : list Value) : Res bool :=
  match l with
  | [] => Ret false
  | VStr s :: r => if trim s =? "" then Ret true else firstBlank r
  | _ :: _ => Throw TypeError
  end.

(** The four required fields in the order the check reads them. *)
Definition requiredFields (b : Body.t) : list Value :=
  [Body.name b; Body.description b; Body.startDate b; Body.endDate b].

(** ** Sample data used by the closed examples *)

Definition isHexDigit (c : ascii) : bool :=
  let n := nat_of_ascii c in
  ((48 <=? n) && (n <=? 57) || (65 <=? n) && (n <=? 70)
   || (97 <=? n) && (n <=? 102))%nat.

Fixpoint allHex (s : string) : bool :=
  match s with
  | EmptyString => true
  | String c r => isHexDigit c && allHex r
  end.

(** A 24-digit hexadecimal string. *)
Definition hex24 (s : string) : bool :=
  (String.length s =? 24)%nat && allHex s.

Definition idP1 : ObjectId := "65f0000000000000000000a1".
Definition idP2 : ObjectId := "65f0000000000000000000a2".
Definition idP9 : ObjectId := "65f0000000000000000000a9".
Definition idU1 : ObjectId := "65f0000000000000000000b1".
Definition idU2 : ObjectId := "65f0000000000000000000b2".
Definition idU3 : ObjectId := "65f0000000000000000000b3".

Definition U1 := User.mk idU1.
Definition U2 := User.mk idU2.
Definition U3 := User.mk idU3.

Definition alpha : Project.t :=
  Project.mk idP1 (VStr "Alpha") (VStr "d") (VStr "2024-01-01")
    (VStr "2024-12-31") VUndefined 0 (Some idU1) [idU2].

Definition gamma : Project.t :=
  Project.mk idP2 (VStr "Gamma") (VStr "g") (VStr "2024-02-01")
    (VStr "2024-11-30") VUndefined 0 (Some idU2) [].

Definition sampleDB : DB := mkDB [alpha; gamma] [U1; U2; U3].

Definition sampleNewId (d : DB) : ObjectId := idP9.

Definition noBody : Body.t :=
  Body.mk VUndefined VUndefined VUndefined VUndefined VUndefined.

Definition noParams : Params.t := Params.mk "" "".

Definition createReq (n de sd ed : Value) (u : option User.t) : Request :=
  mkRequest noParams (Body.mk n de sd ed VUndefined) u.

(** A fresh project, created by U1. *)
Definition betaReq : Request :=
  createReq (VStr "Beta") (VStr "b") (VStr "2024-03-01") (VStr "2024-09-30") (Some U1).

(** The name of a stored project again, all fields filled in. *)
Definition alphaAgainReq : Request :=
  createReq (VStr "Alpha") (VStr "x") (VStr "2025-01-01") (VStr "2025-12-31") (Some U2).

(** The name of a stored project again, with a blank description. *)
Definition alphaBlankReq : Request :=
  createReq (VStr "Alpha") (VStr "   ") (VStr "2025-01-01") (VStr "2025-12-31") (Some U2).

(** No description at all, after a filled-in name. *)
Definition noDescriptionReq : Request :=
  createReq (VStr "Beta") VUndefined (VStr "2024-03-01") (VStr "2024-09-30") (Some U1).

(** No description at all, after a blank name. *)
Definition blankNameNoDescriptionReq : Request :=
  createReq (VStr " ") VUndefined (VStr "2024-03-01") (VStr "2024-09-30") (Some U1).

Definition updateReq (pid : string) (b : Body.t) (u : option User.t) : Request :=
  mkRequest (Params.mk pid "") b u.

(** The patch [{ name: "Beta" }]. *)
Definition renameBody : Body.t :=
  Body.mk (VStr "Beta") VUndefined VUndefined VUndefined VUndefined.

(** A body field the request did not send. *)
Definition omitted (v : Value) : bool :=
  match v with
  | VUndefined => true
  | _ => false
  end.

(** ** Reachable stores

    The operations on the project collection are the seven handlers; the
    user collection grows through registration, which belongs to the user
    service. *)

Inductive Op :=
| CreateProject
| GetProjectById
| GetAllProjectsOfAUser
| GetAllProjects
| UpdateProject
| DeleteProject
| AddMembersToProject.

Definition handler (valid : string -> bool) (sq : bool)
  (newId : DB -> ObjectId) (dflt : Value) (o : Op) : Request -> M Response :=
  match o with
  | CreateProject => createProject sq newId dflt
  | GetProjectById => getProjectById valid
  | GetAllProjectsOfAUser => getAllProjectsOfAUser sq
  | GetAllProjects => getAllProjects sq
  | UpdateProject => updateProject valid
  | DeleteProject => deleteProject valid
  | AddMembersToProject => addMembersToProject valid
  end.

(** The store a handler run leaves behind. *)
Definition after (r : Res Response * World) : DB := db (snd r).

Inductive reachable (valid : string -> bool) (sq : bool)
  (newId : DB -> ObjectId) (dflt : Value) (d0 : DB) : DB -> Prop :=
| reach_init : reachable valid sq newId dflt d0 d0
| reach_handler d o req :
    reachable valid sq newId dflt d0 d ->
    reachable valid sq newId dflt d0
      (after (run (handler valid sq newId dflt o) req d))
| reach_register d u :
    reachable valid sq newId dflt d0 d ->
    reachable valid sq newId dflt d0 (mkDB (projects d) (users d ++ [u])).


(** The listing as the documentation of the route words it: the projects
    whose owner is the caller. *)
Definition ownedBy (callerId : ObjectId) (p : Project.t) : bool :=
  match Project.owner p with
  | Some o => o =? callerId
  | None => false
  end.

Definition projectsOwnedBy (callerId : ObjectId) (d : DB) : list Project.t :=
  filter (ownedBy callerId) (projects d).

Definition listReq (u : option User.t) : Request :=
  mkRequest noParams noBody u.

Definition addReq (pid uid : string) (u : option User.t) : Request :=
  mkRequest (Params.mk pid uid) noBody u.

(** Three registered users and no project yet. *)
Definition emptyStore : DB := mkDB [] [U1; U2; U3].

(** U1 creates a project (it gets the id [idP9]) and adds U2 to it. *)
Definition betaStore : DB :=
  after (run (handler hex24 true sampleNewId VUndefined CreateProject)
           betaReq emptyStore).

Definition betaWithU2 : DB :=
  after (run (handler hex24 true sampleNewId VUndefined AddMembersToProject)
           (addReq idP9 idU2 (Some U1)) betaStore).

(** ** Further store properties *)

(** No two stored projects share an id. *)
Definition idsDistinct (d : DB) : Prop :=
  NoDup (map Project._id (projects d)).

(** No two stored projects share a name. *)
Definition namesDistinct (d : DB) : Prop :=
  NoDup (map Project.name (projects d)).

(** Every project still has the hour count it was created with. *)
Definition hoursUntouched (d : DB) : Prop :=
  Forall (fun p => Project.totalHours p = 0%Z) (projects d).

(** Every member of every project is a valid id of a registered user. *)
Definition membersRegistered (valid : string -> bool) (d : DB) : Prop :=
  Forall (fun p =>
            Forall (fun m => valid m = true /\ lookupUser m (users d) <> None)
              (Project.members p))
    (projects d).


(** The document [createProject] hands to [Project.create]. *)
Definition createdDoc (newId : DB -> ObjectId) (dflt : Value) (req : Request)
  (d : DB) : Project.t :=
  Project.mk (newId d) (Body.name (body req)) (Body.description (body req))
    (Body.startDate (body req)) (Body.endDate (body req)) dflt 0
    (userIdOf req) [].

Definition getReq (pid : string) (u : option User.t) : Request :=
  mkRequest (Params.mk pid "") noBody u.

(** The patch [{ name: "Gamma" }], the name of another stored project. *)
Definition toGammaBody : Body.t :=
  Body.mk (VStr "Gamma") VUndefined VUndefined VUndefined VUndefined.

(** ** Proof conventions

    The store functions are kept folded under simplification and unfolded
    through their equations; [exec] steps through the monad. *)

Arguments lookupProject : simpl never.
Arguments lookupUser : simpl never.
Arguments updateFirst : simpl never.
Arguments removeFirst : simpl never.
Arguments trim : simpl never.

Ltac exec :=
  unfold run, bind, tryCatch, ret, throw, logCall, getDB, putProjects;
  cbn [db calls projects users fst snd app].

(** ** Facts about the store *)

Example trim_both_ends : trim "  a b  " = "a b".
Proof. reflexivity. Qed.

Example trim_whitespace_only :
  trim (String (ascii_of_nat 9) (String (ascii_of_nat 160) " ")) = "".
Proof. reflexivity. Qed.

Example truthy_empty_string : truthy (VStr "") = false /\ truthy (VStr "0") = true.
Proof. split; reflexivity. Qed.

Lemma lookupProject_In id ps p :
  lookupProject id ps = Some p -> In p ps /\ Project._id p = id.
Proof.
  unfold lookupProject. intros H. apply find_some in H.
  destruct H as [Hin Heq]. apply String.eqb_eq in Heq. auto.
Qed.

Lemma Value_eqb_eq a b : Value_eqb a b = true <-> a = b.
Proof.
  split.
  - destruct a, b; simpl; try discriminate; intros H; try reflexivity.
    + apply Bool.eqb_prop in H. congruence.
    + apply Z.eqb_eq in H. congruence.
    + apply String.eqb_eq in H. congruence.
    + apply String.eqb_eq in H. congruence.
  - intros <-. destruct a; simpl; auto.
    + apply Bool.eqb_reflx.
    + apply Z.eqb_refl.
    + apply String.eqb_refl.
    + apply String.eqb_refl.
Qed.

Lemma matches_name sq s p :
  matches sq [("name", VStr s)] p = Value_eqb (Project.name p) (VStr s).
Proof.
  unfold matches, castFilter. destruct sq; simpl; apply andb_true_r.
Qed.

Lemma findOne_name_none sq s ps :
  (forall p, In p ps -> Project.name p <> VStr s) ->
  find (matches sq [("name", VStr s)]) ps = None.
Proof.
  intros H. induction ps as [|p r IH]; simpl; [reflexivity|].
  rewrite matches_name.
  destruct (Value_eqb (Project.name p) (VStr s)) eqn:E.
  - apply Value_eqb_eq in E. exfalso. apply (H p); simpl; auto.
  - apply IH. intros q Hq. apply H. simpl. auto.
Qed.

Lemma findOne_name_some sq s ps p :
  In p ps -> Project.name p = VStr s ->
  exists q, find (matches sq [("name", VStr s)]) ps = Some q.
Proof.
  intros Hin Hn. induction ps as [|x r IH]; simpl in *; [contradiction|].
  rewrite matches_name.
  destruct (Value_eqb (Project.name x) (VStr s)) eqn:E.
  - eauto.
  - destruct Hin as [->|Hin].
    + rewrite Hn in E. rewrite (proj2 (Value_eqb_eq _ _) eq_refl) in E. discriminate.
    + auto.
Qed.

(** ** Running the handlers

    Each handler run is computed once, as a function of what the store
    holds; the theorems on the handlers are read off these equations. *)

Lemma deleteProject_run valid req d :
  run (deleteProject valid) req d =
  let pid := Params.projectId (params req) in
  if valid pid then
    match lookupProject pid (projects d) with
    | None => (Ret (json 404 NoData ProjectNotFoundToDelete),
               mkWorld d [FindByIdAndDelete pid])
    | Some p => (Ret (json 200 (OneProject "deleteProject" p) ProjectDeleted),
                 mkWorld (mkDB (removeFirst pid (projects d)) (users d))
                   [FindByIdAndDelete pid])
    end
  else (Ret (json 401 NoData InvalidObjectId), mkWorld d []).
Proof.
  unfold deleteProject, Project_findByIdAndDelete. exec.
  destruct (valid (Params.projectId (params req))); cbn; [|reflexivity].
  destruct (lookupProject _ _); reflexivity.
Qed.

(** ** deleteProject *)


Lemma some_blank_run (l : list Value) (w : World) :
  some (fun field => t <- callTrim field ;; ret (t =? "")) l w = (firstBlank l, w).
Proof.
  induction l as [|v r IH]; [reflexivity|].
  destruct v; try reflexivity.
  cbn [some firstBlank]. unfold bind at 1. cbn [callTrim]. unfold bind at 1, ret at 1 2.
  destruct (trim s =? ""); [reflexivity | apply IH].
Qed.

Lemma createProject_run sq newId dflt req d :
  run (createProject sq newId dflt) req d =
  let b := body req in
  match firstBlank (requiredFields b) with
  | Throw e => (Throw e, mkWorld d [])
  | Ret true => (Ret (json 400 NoData AllFieldsRequired), mkWorld d [])
  | Ret false =>
      let q := [("name", Body.name b)] in
      match find (matches sq q) (projects d) with
      | Some _ => (Ret (json 400 NoData ProjectNameExists), mkWorld d [FindOne q])
      | None =>
          let doc := Project.mk (newId d) (Body.name b) (Body.description b)
                       (Body.startDate b) (Body.endDate b) dflt 0
                       (userIdOf req) [] in
          (Ret (json 200 (OneProject "newProject" doc) ProjectCreated),
           mkWorld (mkDB (projects d ++ [doc]) (users d)) [FindOne q; Create])
      end
  end.
Proof.
  unfold run, createProject. unfold bind at 1. rewrite some_blank_run.
  fold (requiredFields (body req)).
  destruct (firstBlank (requiredFields (body req))) as [[|]|e]; try reflexivity.
  unfold Project_findOne, Project_create. exec.
  destruct (find _ _); reflexivity.
Qed.

Lemma firstBlank_skip (pre l : list Value) :
  forallb nonBlank pre = true -> firstBlank (pre ++ l) = firstBlank l.
Proof.
  induction pre as [|v r IH]; [reflexivity|].
  cbn [forallb app]. intros H. apply andb_prop in H. destruct H as [Hv Hr].
  destruct v; try discriminate. cbn [firstBlank nonBlank] in *.
  destruct (trim s =? ""); [discriminate | auto].
Qed.

Lemma firstBlank_none (l : list Value) :
  forallb nonBlank l = true -> firstBlank l = Ret false.
Proof.
  intros H. rewrite <- (app_nil_r l). rewrite firstBlank_skip; auto.
Qed.

Lemma firstBlank_strings (l : list Value) :
  forallb isString l = true -> exists b, firstBlank l = Ret b.
Proof.
  induction l as [|v r IH]; cbn [forallb firstBlank]; [eauto|].
  intros H. apply andb_prop in H. destruct H as [Hv Hr].
  destruct v; try discriminate.
  destruct (trim s =? ""); eauto.
Qed.

Lemma nonBlank_name_string (b : Body.t) :
  forallb nonBlank (requiredFields b) = true -> exists s, Body.name b = VStr s.
Proof.
  unfold requiredFields. cbn [forallb]. intros H.
  apply andb_prop in H. destruct H as [H _].
  destruct (Body.name b); try discriminate. eauto.
Qed.

(** ** createProject *)

(** C4: when the four required fields are strings that are not blank after
    trimming and no stored project has the given name, createProject
    answers 200 with the project it inserted; that project has the
    authenticated caller as owner and totalHours 0 (and the fields of the
    body, no members, the default status). *)
Theorem createProject_creates sq newId dflt (req : Request) (d : DB) (caller : User.t) :
  forallb nonBlank (requiredFields (body req)) = true ->
  (forall p, In p (projects d) -> Project.name p <> Body.name (body req)) ->
  user req = Some caller ->
  exists p,
    run (createProject sq newId dflt) req d
      = (Ret (json 200 (OneProject "newProject" p) ProjectCreated),
         mkWorld (mkDB (projects d ++ [p]) (users d))
           [FindOne [("name", Body.name (body req))]; Create])
    /\ Project.owner p = Some (User._id caller)
    /\ Project.totalHours p = 0%Z
    /\ Project.name p = Body.name (body req)
    /\ Project.description p = Body.description (body req)
    /\ Project.startDate p = Body.startDate (body req)
    /\ Project.endDate p = Body.endDate (body req)
    /\ Project.status p = dflt
    /\ Project.members p = [].
Proof.
  intros Hnb Hfresh Hu.
  rewrite createProject_run. cbv zeta.
  rewrite (firstBlank_none _ Hnb).
  destruct (nonBlank_name_string _ Hnb) as [s Hs].
  rewrite Hs in *. rewrite (findOne_name_none sq s (projects d) Hfresh).
  eexists. split; [reflexivity|].
  cbn. unfold userIdOf. rewrite Hu. repeat split; reflexivity.
Qed.

Lemma createProject_creates_witness :
  exists p,
    run (createProject true sampleNewId VUndefined) betaReq sampleDB
      = (Ret (json 200 (OneProject "newProject" p) ProjectCreated),
         mkWorld (mkDB (projects sampleDB ++ [p]) (users sampleDB))
           [FindOne [("name", VStr "Beta")]; Create])
    /\ Project.owner p = Some idU1
    /\ Project.totalHours p = 0%Z.
Proof.
  destruct (createProject_creates true sampleNewId VUndefined betaReq sampleDB U1)
    as [p [Hrun [Ho [Ht _]]]].
  - reflexivity.
  - intros p [<-|[<-|[]]]; discriminate.
  - reflexivity.
  - exists p. auto.
Defined.

(** C6, as stated, fails: a creation attempt that reuses the name of a
    stored project but leaves the description blank is answered by the
    blank-field check, a validation failure, before the name is looked
    up. *)
Lemma createProject_taken_name_blank_field :
  In alpha (projects sampleDB)
  /\ Project.name alpha = Body.name (body alphaBlankReq)
  /\ run (createProject true sampleNewId VUndefined) alphaBlankReq sampleDB
      = (Ret (json 400 NoData AllFieldsRequired), mkWorld sampleDB [])
  /\ errorOf (fst (run (createProject true sampleNewId VUndefined) alphaBlankReq sampleDB))
      = Some ValidationError
  /\ errorOf (fst (run (createProject true sampleNewId VUndefined) alphaBlankReq sampleDB))
      <> Some ConflictError.
Proof.
  repeat split; try reflexivity.
  - simpl. auto.
  - vm_compute. discriminate.
Qed.

(** C6, amended: a creation attempt whose name is that of a stored project
    never inserts a document; when its four required fields are strings
    that are not blank after trimming it is answered 400 with the
    name-taken message, a conflict. *)
Theorem createProject_rejects_taken_name sq newId dflt (req : Request) (d : DB)
  (p : Project.t) :
  In p (projects d) ->
  Project.name p = Body.name (body req) ->
  after (run (createProject sq newId dflt) req d) = d
  /\ (forallb nonBlank (requiredFields (body req)) = true ->
      run (createProject sq newId dflt) req d
        = (Ret (json 400 NoData ProjectNameExists),
           mkWorld d [FindOne [("name", Body.name (body req))]])
      /\ errorOf (fst (run (createProject sq newId dflt) req d)) = Some ConflictError).
Proof.
  intros Hin Hn. rewrite createProject_run. cbv zeta.
  split.
  - destruct (firstBlank (requiredFields (body req))) as [[|]|e] eqn:E;
      try reflexivity.
    unfold requiredFields in E. cbn [firstBlank] in E.
    destruct (Body.name (body req)) eqn:Eb; try discriminate.
    destruct (findOne_name_some sq s (projects d) p Hin Hn) as [q Hq].
    rewrite Hq. reflexivity.
  - intros Hnb. rewrite (firstBlank_none _ Hnb).
    destruct (nonBlank_name_string _ Hnb) as [s Hs].
    rewrite Hs in *.
    destruct (findOne_name_some sq s (projects d) p Hin Hn) as [q Hq].
    rewrite Hq. split; reflexivity.
Qed.

Lemma createProject_rejects_taken_name_witness :
  after (run (createProject true sampleNewId VUndefined) alphaAgainReq sampleDB)
    = sampleDB
  /\ run (createProject true sampleNewId VUndefined) alphaAgainReq sampleDB
      = (Ret (json 400 NoData ProjectNameExists),
         mkWorld sampleDB [FindOne [("name", VStr "Alpha")]])
  /\ errorOf (fst (run (createProject true sampleNewId VUndefined) alphaAgainReq sampleDB))
      = Some ConflictError.
Proof.
  destruct (createProject_rejects_taken_name true sampleNewId VUndefined
              alphaAgainReq sampleDB alpha) as [Hd Hc].
  - simpl. auto.
  - reflexivity.
  - split; [exact Hd | apply Hc; reflexivity].
Defined.

(** C9, as stated, fails: with a blank name and no description at all the
    check stops at the name and createProject does send the validation
    response; nothing is thrown. *)
Lemma createProject_absent_after_blank :
  Body.description (body blankNameNoDescriptionReq) = VUndefined
  /\ run (createProject true sampleNewId VUndefined) blankNameNoDescriptionReq sampleDB
      = (Ret (json 400 NoData AllFieldsRequired), mkWorld sampleDB [])
  /\ errorOf (fst (run (createProject true sampleNewId VUndefined)
                     blankNameNoDescriptionReq sampleDB))
      = Some ValidationError.
Proof.
  repeat split.
Qed.

(** C9, amended: reading name, description, startDate, endDate in this
    order, if the first field that is not a non-blank string is not a
    string at all (absent, for one), the blank-field check throws a
    TypeError that escapes the handler: no response is sent and the store
    is not touched. If that field is a blank string the handler sends the
    validation response instead, whatever follows it. When all four fields
    are strings nothing is thrown. *)
Theorem createProject_blank_check sq newId dflt (req : Request) (d : DB) :
  (forall pre v post,
     requiredFields (body req) = (pre ++ v :: post)%list ->
     forallb nonBlank pre = true -> isString v = false ->
     run (createProject sq newId dflt) req d = (Throw TypeError, mkWorld d [])
     /\ errorOf (fst (run (createProject sq newId dflt) req d)) = None)
  /\ (forall pre s post,
     requiredFields (body req) = (pre ++ VStr s :: post)%list ->
     forallb nonBlank pre = true -> trim s = "" ->
     run (createProject sq newId dflt) req d
       = (Ret (json 400 NoData AllFieldsRequired), mkWorld d []))
  /\ (forallb isString (requiredFields (body req)) = true ->
     exists r w, run (createProject sq newId dflt) req d = (Ret r, w)).
Proof.
  rewrite createProject_run. cbv zeta.
  split; [|split].
  - intros pre v post E Hpre Hv. rewrite E, firstBlank_skip by assumption.
    destruct v; try discriminate; split; reflexivity.
  - intros pre s post E Hpre Hs. rewrite E, firstBlank_skip by assumption.
    cbn [firstBlank]. rewrite Hs. reflexivity.
  - intros Hs. destruct (firstBlank_strings _ Hs) as [b Hb]. rewrite Hb.
    destruct b; [eauto|].
    destruct (find _ _); eauto.
Qed.

Lemma createProject_blank_check_witness :
  run (createProject true sampleNewId VUndefined) noDescriptionReq sampleDB
    = (Throw TypeError, mkWorld sampleDB [])
  /\ run (createProject true sampleNewId VUndefined) alphaBlankReq sampleDB
      = (Ret (json 400 NoData AllFieldsRequired), mkWorld sampleDB [])
  /\ exists r w,
      run (createProject true sampleNewId VUndefined) betaReq sampleDB = (Ret r, w).
Proof.
  split; [|split].
  - apply (proj1 (createProject_blank_check true sampleNewId VUndefined
                    noDescriptionReq sampleDB)
             [VStr "Beta"] VUndefined [VStr "2024-03-01"; VStr "2024-09-30"]);
      reflexivity.
  - apply (proj1 (proj2 (createProject_blank_check true sampleNewId VUndefined
                           alphaBlankReq sampleDB))
             [VStr "Alpha"] "   " [VStr "2025-01-01"; VStr "2025-12-31"]);
      reflexivity.
  - apply (proj2 (proj2 (createProject_blank_check true sampleNewId VUndefined
                           betaReq sampleDB))).
    reflexivity.
Defined.

(** ** updateProject *)

Lemma hasDetails_guard (b : Body.t) :
  negb (truthy (Body.name b)) && negb (truthy (Body.description b))
  && negb (truthy (Body.startDate b)) && negb (truthy (Body.endDate b))
  && negb (truthy (Body.status b)) = negb (hasDetails b).
Proof.
  unfold hasDetails.
  destruct (truthy (Body.name b)), (truthy (Body.description b)),
    (truthy (Body.startDate b)), (truthy (Body.endDate b)),
    (truthy (Body.status b)); reflexivity.
Qed.

Lemma strictNe_true (a b : option string) : strictNe a b = true <-> a <> b.
Proof.
  destruct a as [x|], b as [y|]; simpl; split; intros H; try congruence.
  - apply negb_true_iff, String.eqb_neq in H. congruence.
  - apply negb_true_iff, String.eqb_neq. congruence.
Qed.

Lemma updateProject_run valid req d :
  run (updateProject valid) req d =
  let pid := Params.projectId (params req) in
  let b := body req in
  if hasDetails b then
    if valid pid then
      match lookupProject pid (projects d) with
      | None => (Ret (json 500 NoData UpdateServerError),
                 mkWorld d [FindById Projects pid])
      | Some p =>
          if strictNe (Project.owner p) (userIdOf req) then
            (Ret (json 400 NoData NotAuthorizedToChange),
             mkWorld d [FindById Projects pid])
          else
            let s := SetDoc.mk (Body.name b) (Body.description b)
                       (Body.startDate b) (Body.endDate b) (Body.status b) in
            (Ret (json 200 (OneProject "updateProject" (applySet s p)) ProjectUpdated),
             mkWorld (mkDB (updateFirst pid (applySet s) (projects d)) (users d))
               [FindById Projects pid; FindByIdAndUpdate pid])
      end
    else (Ret (json 500 NoData UpdateServerError),
          mkWorld d [FindById Projects pid])
  else (Ret (json 400 NoData EnterSomeDetails), mkWorld d []).
Proof.
  unfold run, updateProject. rewrite hasDetails_guard. cbv zeta.
  destruct (hasDetails (body req)); cbn [negb]; [|reflexivity].
  unfold Project_findById, Project_findByIdAndUpdate, toStringOpt. exec.
  destruct (valid (Params.projectId (params req))) eqn:Hv; [|reflexivity].
  cbn [db projects].
  destruct (lookupProject _ _) eqn:Hl; [|reflexivity].
  destruct (strictNe _ _); [reflexivity|].
  cbn [db projects users calls app]. rewrite Hl. reflexivity.
Qed.

Lemma updateFirst_cons id f p r :
  updateFirst id f (p :: r)
  = if Project._id p =? id then f p :: r else p :: updateFirst id f r.
Proof. reflexivity. Qed.

Lemma removeFirst_cons id p r :
  removeFirst id (p :: r) = if Project._id p =? id then r else p :: removeFirst id r.
Proof. reflexivity. Qed.

Lemma lookupProject_cons id p r :
  lookupProject id (p :: r)
  = if Project._id p =? id then Some p else lookupProject id r.
Proof. reflexivity. Qed.

Lemma lookup_updateFirst_same id f ps p :
  lookupProject id ps = Some p -> Project._id (f p) = id ->
  lookupProject id (updateFirst id f ps) = Some (f p).
Proof.
  intros H Hf. induction ps as [|x r IH]; [discriminate|].
  rewrite updateFirst_cons. rewrite lookupProject_cons in H.
  destruct (Project._id x =? id) eqn:E; rewrite lookupProject_cons.
  - injection H as ->. rewrite Hf, String.eqb_refl. reflexivity.
  - rewrite E. auto.
Qed.

Lemma lookup_updateFirst_other id id' f ps :
  id' <> id -> (forall p, Project._id (f p) = Project._id p) ->
  lookupProject id' (updateFirst id f ps) = lookupProject id' ps.
Proof.
  intros Hne Hf. induction ps as [|x r IH]; [reflexivity|].
  rewrite updateFirst_cons.
  destruct (Project._id x =? id) eqn:E; rewrite !lookupProject_cons.
  - rewrite Hf. apply String.eqb_eq in E. rewrite E.
    apply not_eq_sym, String.eqb_neq in Hne. rewrite Hne. reflexivity.
  - rewrite IH. reflexivity.
Qed.

Lemma setPath_omitted new old :
  setPath new old = if omitted new then old else new.
Proof. destruct new; reflexivity. Qed.

(** C1, on the code: a valid id that no project carries, with the patch
    [{ name: "Beta" }] sent by U1. findById answers null, reading
    [project.owner] throws inside the try block, and the catch clause
    answers 500: a server error, not the not-found failure. *)
Theorem updateProject_missing_project_500 :
  hex24 idP9 = true
  /\ lookupProject idP9 (projects sampleDB) = None
  /\ hasDetails renameBody = true
  /\ run (updateProject hex24) (updateReq idP9 renameBody (Some U1)) sampleDB
      = (Ret (json 500 NoData UpdateServerError),
         mkWorld sampleDB [FindById Projects idP9])
  /\ errorOf (fst (run (updateProject hex24)
                     (updateReq idP9 renameBody (Some U1)) sampleDB))
      = Some ServerError.
Proof.
  repeat split.
Qed.

(** The same for every store and request: with a patch that passes the
    first check, an id without a project ends in the 500 of the catch
    clause. *)
Lemma updateProject_missing_project valid req d :
  hasDetails (body req) = true ->
  lookupProject (Params.projectId (params req)) (projects d) = None ->
  fst (run (updateProject valid) req d) = Ret (json 500 NoData UpdateServerError).
Proof.
  intros Hd Hl. rewrite updateProject_run. cbv zeta. rewrite Hd, Hl.
  destruct (valid _); reflexivity.
Qed.

(** C5, as stated, fails: a caller who is not the owner and sends an empty
    patch is answered by the patch check, a validation failure; the owner
    comparison is not reached. *)
Lemma updateProject_non_owner_empty_patch :
  lookupProject idP1 (projects sampleDB) = Some alpha
  /\ Project.owner alpha <> userIdOf (updateReq idP1 noBody (Some U3))
  /\ run (updateProject hex24) (updateReq idP1 noBody (Some U3)) sampleDB
      = (Ret (json 400 NoData EnterSomeDetails), mkWorld sampleDB [])
  /\ errorOf (fst (run (updateProject hex24) (updateReq idP1 noBody (Some U3)) sampleDB))
      = Some ValidationError
  /\ errorOf (fst (run (updateProject hex24) (updateReq idP1 noBody (Some U3)) sampleDB))
      <> Some AuthorizationError.
Proof.
  repeat split; try reflexivity; vm_compute; discriminate.
Qed.

(** C5, amended: when the project stored under projectId has an owner other
    than the caller, updateProject never succeeds and leaves the store as it
    was; when moreover the patch has a non-empty field (and the id is a
    valid one), the answer is the not-authorized message, an authorization
    failure, after the one lookup. *)
Theorem updateProject_non_owner valid (req : Request) (d : DB) (p : Project.t) :
  lookupProject (Params.projectId (params req)) (projects d) = Some p ->
  Project.owner p <> userIdOf req ->
  after (run (updateProject valid) req d) = d
  /\ succeeded (fst (run (updateProject valid) req d)) = false
  /\ (hasDetails (body req) = true ->
      valid (Params.projectId (params req)) = true ->
      run (updateProject valid) req d
        = (Ret (json 400 NoData NotAuthorizedToChange),
           mkWorld d [FindById Projects (Params.projectId (params req))])
      /\ errorOf (fst (run (updateProject valid) req d)) = Some AuthorizationError).
Proof.
  intros Hl Hne. apply strictNe_true in Hne.
  rewrite updateProject_run. cbv zeta. rewrite Hl, Hne.
  split; [|split].
  - destruct (hasDetails (body req)), (valid (Params.projectId (params req)));
      reflexivity.
  - destruct (hasDetails (body req)), (valid (Params.projectId (params req)));
      reflexivity.
  - intros -> ->. split; reflexivity.
Qed.

Lemma updateProject_non_owner_witness :
  after (run (updateProject hex24) (updateReq idP1 renameBody (Some U3)) sampleDB)
    = sampleDB
  /\ run (updateProject hex24) (updateReq idP1 renameBody (Some U3)) sampleDB
      = (Ret (json 400 NoData NotAuthorizedToChange),
         mkWorld sampleDB [FindById Projects idP1])
  /\ errorOf (fst (run (updateProject hex24) (updateReq idP1 renameBody (Some U3)) sampleDB))
      = Some AuthorizationError.
Proof.
  destruct (updateProject_non_owner hex24 (updateReq idP1 renameBody (Some U3))
              sampleDB alpha) as [Hd [_ Hc]].
  - reflexivity.
  - vm_compute. discriminate.
  - split; [exact Hd | apply Hc; reflexivity].
Defined.

(** C7: a successful updateProject call found a project under projectId;
    the response carries the document as it is stored afterwards. In it
    each of name, description, startDate, endDate, status has the value of
    the patch when the patch sends the field and its prior value when the
    patch omits it; _id, owner, members and totalHours have their prior
    values. Every other project, and the user collection, is as before. *)
Theorem updateProject_partial valid (req : Request) (d : DB) :
  succeeded (fst (run (updateProject valid) req d)) = true ->
  let pid := Params.projectId (params req) in
  let b := body req in
  let d' := after (run (updateProject valid) req d) in
  exists p p',
    lookupProject pid (projects d) = Some p
    /\ fst (run (updateProject valid) req d)
        = Ret (json 200 (OneProject "updateProject" p') ProjectUpdated)
    /\ lookupProject pid (projects d') = Some p'
    /\ (forall id, id <> pid ->
         lookupProject id (projects d') = lookupProject id (projects d))
    /\ users d' = users d
    /\ Project.name p' = (if omitted (Body.name b) then Project.name p else Body.name b)
    /\ Project.description p'
        = (if omitted (Body.description b) then Project.description p
           else Body.description b)
    /\ Project.startDate p'
        = (if omitted (Body.startDate b) then Project.startDate p else Body.startDate b)
    /\ Project.endDate p'
        = (if omitted (Body.endDate b) then Project.endDate p else Body.endDate b)
    /\ Project.status p'
        = (if omitted (Body.status b) then Project.status p else Body.status b)
    /\ Project._id p' = Project._id p
    /\ Project.owner p' = Project.owner p
    /\ Project.members p' = Project.members p
    /\ Project.totalHours p' = Project.totalHours p.
Proof.
  intros Hs pid b d'. subst d'. revert Hs.
  rewrite updateProject_run. cbv zeta. fold pid b.
  destruct (hasDetails b); [|discriminate].
  destruct (valid pid); [|discriminate].
  destruct (lookupProject pid (projects d)) as [p|] eqn:Hl; [|discriminate].
  destruct (strictNe _ _); [discriminate|].
  intros _. destruct (lookupProject_In _ _ _ Hl) as [_ Hid].
  exists p. eexists. split; [reflexivity|]. split; [reflexivity|].
  unfold after. cbn [fst snd db projects users].
  split; [apply lookup_updateFirst_same; [exact Hl | exact Hid]|].
  split; [intros id Hne; apply lookup_updateFirst_other; [exact Hne | reflexivity]|].
  cbn [applySet Project.name Project.description Project.startDate Project.endDate
       Project.status Project._id Project.owner Project.members Project.totalHours
       SetDoc.name SetDoc.description SetDoc.startDate SetDoc.endDate SetDoc.status].
  rewrite !setPath_omitted. repeat split; reflexivity.
Qed.

Lemma updateProject_partial_witness :
  exists p',
    fst (run (updateProject hex24) (updateReq idP1 renameBody (Some U1)) sampleDB)
      = Ret (json 200 (OneProject "updateProject" p') ProjectUpdated)
    /\ Project.name p' = VStr "Beta"
    /\ Project.description p' = VStr "d"
    /\ Project.owner p' = Some idU1
    /\ Project.members p' = [idU2].
Proof.
  destruct (updateProject_partial hex24 (updateReq idP1 renameBody (Some U1)) sampleDB)
    as (p & p' & Hl & Hr & _ & _ & _ & Hn & Hde & _ & _ & _ & _ & Ho & Hm & _).
  - reflexivity.
  - assert (Hp : p = alpha).
    { cut (Some p = Some alpha); [congruence|]. rewrite <- Hl. reflexivity. }
    subst p. exists p'. repeat split; assumption.
Defined.

Lemma getProjectById_run valid req d :
  run (getProjectById valid) req d =
  let pid := Params.projectId (params req) in
  if valid pid then
    match lookupProject pid (projects d) with
    | None => (Ret (json 404 NoData ProjectNotFound),
               mkWorld d [FindById Projects pid])
    | Some p => (Ret (json 200 (OneProject "project" p) ProjectFetched),
                 mkWorld d [FindById Projects pid])
    end
  else (Ret (json 401 NoData EnterValidProjectId), mkWorld d []).
Proof.
  unfold getProjectById, Project_findById. exec.
  destruct (valid (Params.projectId (params req))); cbn; [|reflexivity].
  destruct (lookupProject _ _); reflexivity.
Qed.

(** C10, as stated, fails: with an id that is not valid and an empty patch
    the answer is the validation failure of the patch check, and no lookup
    is made. *)
Lemma updateProject_invalid_id_empty_patch :
  hex24 "not-an-id" = false
  /\ run (updateProject hex24) (updateReq "not-an-id" noBody (Some U1)) sampleDB
     = (Ret (json 400 NoData EnterSomeDetails), mkWorld sampleDB [])
  /\ errorOf (fst (run (updateProject hex24)
                    (updateReq "not-an-id" noBody (Some U1)) sampleDB))
     = Some ValidationError.
Proof.
  repeat split.
Qed.

(** C10, amended: updateProject does not check the syntax of projectId.
    With a patch that has a non-empty field, an id that is not valid goes
    to the findById lookup, whose cast failure the catch clause turns into
    the 500 answer, a server error; getProjectById and deleteProject answer
    the same id with their 401 validation message and make no persistence
    call. *)
Theorem updateProject_invalid_id valid (req : Request) (d : DB) :
  valid (Params.projectId (params req)) = false ->
  hasDetails (body req) = true ->
  run (updateProject valid) req d
    = (Ret (json 500 NoData UpdateServerError),
       mkWorld d [FindById Projects (Params.projectId (params req))])
  /\ errorOf (fst (run (updateProject valid) req d)) = Some ServerError
  /\ run (getProjectById valid) req d
     = (Ret (json 401 NoData EnterValidProjectId), mkWorld d [])
  /\ errorOf (fst (run (getProjectById valid) req d)) = Some ValidationError
  /\ run (deleteProject valid) req d
     = (Ret (json 401 NoData InvalidObjectId), mkWorld d [])
  /\ errorOf (fst (run (deleteProject valid) req d)) = Some ValidationError.
Proof.
  intros Hv Hd.
  rewrite updateProject_run, getProjectById_run, deleteProject_run. cbv zeta.
  rewrite Hv, Hd. repeat split.
Qed.

Lemma updateProject_invalid_id_witness :
  run (updateProject hex24) (updateReq "not-an-id" renameBody (Some U1)) sampleDB
    = (Ret (json 500 NoData UpdateServerError),
       mkWorld sampleDB [FindById Projects "not-an-id"])
  /\ run (getProjectById hex24) (updateReq "not-an-id" renameBody (Some U1)) sampleDB
     = (Ret (json 401 NoData EnterValidProjectId), mkWorld sampleDB []).
Proof.
  destruct (updateProject_invalid_id hex24
              (updateReq "not-an-id" renameBody (Some U1)) sampleDB)
    as (Hu & _ & Hg & _).
  - reflexivity.
  - reflexivity.
  - split; assumption.
Defined.


(** ** The listing handlers *)

Lemma getAllProjectsOfAUser_run sq req d :
  run (getAllProjectsOfAUser sq) req d =
  let q := [("userId", match userIdOf req with Some i => VId i | None => VUndefined end)] in
  (Ret (json 200 (ManyProjects "allProjects" (filter (matches sq q) (projects d)))
          UserProjectsFetched),
   mkWorld d [Find q]).
Proof. reflexivity. Qed.

Lemma getAllProjects_run sq req d :
  run (getAllProjects sq) req d =
  (Ret (json 200 (ManyProjects "allProjects" (projects d)) AllProjectsFetched),
   mkWorld d [Find []]).
Proof.
  unfold getAllProjects, Project_find. exec.
  replace (filter (matches sq []) (projects d)) with (projects d); [reflexivity|].
  induction (projects d) as [|p r IH]; [reflexivity|].
  cbn [filter]. replace (matches sq [] p) with true by (destruct sq; reflexivity).
  f_equal. exact IH.
Qed.

Lemma matches_userId sq i p : matches sq [("userId", VId i)] p = sq.
Proof. destruct sq; reflexivity. Qed.

(** For an authenticated caller the filter of [getAllProjectsOfAUser] never
    looks at the owner: it keeps every project when unknown filter keys are
    dropped, and none otherwise. *)
Lemma getAllProjectsOfAUser_ignores_owner sq req d u :
  user req = Some u ->
  fst (run (getAllProjectsOfAUser sq) req d)
  = Ret (json 200 (ManyProjects "allProjects" (if sq then projects d else []))
           UserProjectsFetched).
Proof.
  intros Hu. rewrite getAllProjectsOfAUser_run. cbv zeta. cbn [fst].
  unfold userIdOf. rewrite Hu. cbn [option_map].
  do 3 f_equal.
  induction (projects d) as [|p r IH]; [destruct sq; reflexivity|].
  cbn [filter]. rewrite matches_userId. destruct sq; [f_equal|]; exact IH.
Qed.

(** C2, on the code: the store holds Alpha, owned by U1, and Gamma, owned
    by U2; U3 owns nothing. The handler filters on a key [userId] that no
    project has, so the owner plays no part: U1 and U3 both get every
    project when unknown filter keys are dropped, and both get the empty
    list when they are kept. In neither setting does U1 get exactly
    Alpha. *)
Theorem getAllProjectsOfAUser_filters_userId :
  projectsOwnedBy idU1 sampleDB = [alpha]
  /\ projectsOwnedBy idU3 sampleDB = []
  /\ fst (run (getAllProjectsOfAUser true) (listReq (Some U1)) sampleDB)
      = Ret (json 200 (ManyProjects "allProjects" [alpha; gamma]) UserProjectsFetched)
  /\ fst (run (getAllProjectsOfAUser true) (listReq (Some U3)) sampleDB)
      = Ret (json 200 (ManyProjects "allProjects" [alpha; gamma]) UserProjectsFetched)
  /\ fst (run (getAllProjectsOfAUser false) (listReq (Some U1)) sampleDB)
      = Ret (json 200 (ManyProjects "allProjects" []) UserProjectsFetched)
  /\ fst (run (getAllProjectsOfAUser false) (listReq (Some U3)) sampleDB)
      = Ret (json 200 (ManyProjects "allProjects" []) UserProjectsFetched).
Proof.
  repeat split.
Qed.

(** ** addMembersToProject *)

Lemma addMembersToProject_run valid req d :
  run (addMembersToProject valid) req d =
  let pid := Params.projectId (params req) in
  let uid := Params.userId (params req) in
  if negb (valid pid) || negb (valid uid) then
    (Throw (ApiError 401 InvalidProjectOrUserId), mkWorld d [])
  else
    match lookupProject pid (projects d) with
    | None => (Throw (ApiError 404 ProjectNotFoundToAdd),
               mkWorld d [FindById Projects pid])
    | Some p =>
        let log := [FindById Projects pid; FindById Users uid] in
        match lookupUser uid (users d) with
        | None => (Throw (ApiError 404 UserNotFoundToAdd), mkWorld d log)
        | Some _ =>
            match Project.owner p with
            | None => (Throw TypeError, mkWorld d log)
            | Some o =>
                if strictNe (Some o) (userIdOf req) then
                  (Throw (ApiError 401 NotOwner), mkWorld d log)
                else if includes uid (Project.members p) then
                  (Throw (ApiError 401 AlreadyMember), mkWorld d log)
                else
                  (Ret (json 200 (ApiResponse 200 (pushMember uid p)) MemberAdded),
                   mkWorld
                     (mkDB (updateFirst pid (fun _ => pushMember uid p) (projects d))
                        (users d))
                     (log ++ [Save pid]))
            end
        end
    end.
Proof.
  unfold run, addMembersToProject. cbv zeta.
  destruct (valid (Params.projectId (params req))) eqn:Hp;
    destruct (valid (Params.userId (params req))) eqn:Hu;
    cbn [negb orb]; try reflexivity.
  unfold Project_findById, User_findById, save, toStringOpt. exec.
  rewrite Hp. cbn [db projects].
  destruct (lookupProject _ _) as [p|] eqn:Hl; [|reflexivity].
  rewrite Hu. cbn [db users calls app].
  destruct (lookupUser _ _); [|reflexivity].
  destruct (Project.owner p); [|reflexivity].
  destruct (strictNe _ _); [reflexivity|].
  destruct (includes _ _); [reflexivity|].
  cbn [db projects users calls app pushMember Project._id].
  destruct (lookupProject_In _ _ _ Hl) as [_ Hid].
  rewrite Hid, Hl. reflexivity.
Qed.

Lemma includes_In uid ms : includes uid ms = true <-> In uid ms.
Proof.
  unfold includes. rewrite existsb_exists. split.
  - intros [x [Hin Hx]]. apply String.eqb_eq in Hx. subst x. exact Hin.
  - intros Hin. exists uid. split; [exact Hin | apply String.eqb_refl].
Qed.

Lemma NoDup_push (uid : ObjectId) ms :
  NoDup ms -> includes uid ms = false -> NoDup (ms ++ [uid]).
Proof.
  intros Hnd Hinc.
  assert (Hnot : ~ In uid ms).
  { intros Hin. apply includes_In in Hin. congruence. }
  clear Hinc. induction Hnd as [|x l Hx Hl IH]; cbn [app].
  - constructor; [intros [] | constructor].
  - constructor.
    + rewrite in_app_iff. intros [H|[H|[]]]; [contradiction|].
      apply Hnot. left. symmetry. exact H.
    + apply IH. intros H. apply Hnot. right. exact H.
Qed.

Lemma Forall_updateFirst (P : Project.t -> Prop) id f ps :
  Forall P ps -> (forall x, In x ps -> P x -> P (f x)) ->
  Forall P (updateFirst id f ps).
Proof.
  intros H Hf. induction H as [|x l Hx Hl IH]; [constructor|].
  rewrite updateFirst_cons. destruct (Project._id x =? id).
  - constructor; [apply Hf; [left; reflexivity | exact Hx] | exact Hl].
  - constructor; [exact Hx|]. apply IH. intros y Hy. apply Hf. right. exact Hy.
Qed.

Lemma Forall_removeFirst (P : Project.t -> Prop) id ps :
  Forall P ps -> Forall P (removeFirst id ps).
Proof.
  intros H. induction H as [|x l Hx Hl IH]; [constructor|].
  rewrite removeFirst_cons. destruct (Project._id x =? id); [exact Hl|].
  constructor; assumption.
Qed.







(** * Further properties of the handlers *)

Lemma In_updateFirst id f ps (q : Project.t) :
  In q (updateFirst id f ps) -> In q ps \/ exists p, In p ps /\ q = f p.
Proof.
  induction ps as [|x r IH]; [intros []|].
  rewrite updateFirst_cons. destruct (Project._id x =? id); intros [H|H].
  - right. exists x. split; [left; reflexivity | symmetry; exact H].
  - left. right. exact H.
  - left. left. exact H.
  - destruct (IH H) as [Hin|[p [Hin Hq]]].
    + left. right. exact Hin.
    + right. exists p. split; [right; exact Hin | exact Hq].
Qed.

Lemma In_removeFirst id ps (q : Project.t) :
  In q (removeFirst id ps) -> In q ps.
Proof.
  induction ps as [|x r IH]; [intros []|].
  rewrite removeFirst_cons. destruct (Project._id x =? id).
  - intros H. right. exact H.
  - intros [H|H]; [left; exact H | right; apply IH; exact H].
Qed.

(** X1: a handler run that does not answer 200 has no effect on the store,
    whichever of the seven handlers it is and whatever the reason of the
    failure (a response other than 200 or an exception). *)
Theorem failed_run_changes_nothing valid sq newId dflt (o : Op) (req : Request)
  (d : DB) :
  succeeded (fst (run (handler valid sq newId dflt o) req d)) = false ->
  after (run (handler valid sq newId dflt o) req d) = d.
Proof.
  unfold after. destruct o; cbn [handler].
  - rewrite createProject_run. cbv zeta.
    destruct (firstBlank _) as [[|]|e]; try reflexivity.
    destruct (find _ _); [reflexivity | discriminate].
  - rewrite getProjectById_run. cbv zeta.
    destruct (valid _); [|reflexivity]. destruct (lookupProject _ _); reflexivity.
  - rewrite getAllProjectsOfAUser_run. reflexivity.
  - rewrite getAllProjects_run. reflexivity.
  - rewrite updateProject_run. cbv zeta.
    destruct (hasDetails _); [|reflexivity].
    destruct (valid _); [|reflexivity].
    destruct (lookupProject _ _); [|reflexivity].
    destruct (strictNe _ _); [reflexivity | discriminate].
  - rewrite deleteProject_run. cbv zeta.
    destruct (valid _); [|reflexivity].
    destruct (lookupProject _ _); [discriminate | reflexivity].
  - rewrite addMembersToProject_run. cbv zeta.
    destruct (negb _ || negb _); [reflexivity|].
    destruct (lookupProject _ _) as [p|]; [|reflexivity].
    destruct (lookupUser _ _); [|reflexivity].
    destruct (Project.owner p); [|reflexivity].
    destruct (strictNe _ _); [reflexivity|].
    destruct (includes _ _); [reflexivity | discriminate].
Qed.

Lemma failed_run_changes_nothing_witness :
  after (run (handler hex24 true sampleNewId VUndefined DeleteProject)
           (getReq idP9 (Some U1)) sampleDB) = sampleDB.
Proof.
  apply (failed_run_changes_nothing hex24 true sampleNewId VUndefined DeleteProject
           (getReq idP9 (Some U1)) sampleDB).
  reflexivity.
Defined.

Lemma handler_keeps_users valid sq newId dflt (o : Op) (req : Request) (d : DB) :
  users (after (run (handler valid sq newId dflt o) req d)) = users d.
Proof.
  unfold after. destruct o; cbn [handler].
  - rewrite createProject_run. cbv zeta.
    destruct (firstBlank _) as [[|]|e]; try reflexivity.
    destruct (find _ _); reflexivity.
  - rewrite getProjectById_run. cbv zeta.
    destruct (valid _); [|reflexivity]. destruct (lookupProject _ _); reflexivity.
  - rewrite getAllProjectsOfAUser_run. reflexivity.
  - rewrite getAllProjects_run. reflexivity.
  - rewrite updateProject_run. cbv zeta.
    destruct (hasDetails _); [|reflexivity].
    destruct (valid _); [|reflexivity].
    destruct (lookupProject _ _); [|reflexivity].
    destruct (strictNe _ _); reflexivity.
  - rewrite deleteProject_run. cbv zeta.
    destruct (valid _); [|reflexivity].
    destruct (lookupProject _ _); reflexivity.
  - rewrite addMembersToProject_run. cbv zeta.
    destruct (negb _ || negb _); [reflexivity|].
    destruct (lookupProject _ _) as [p|]; [|reflexivity].
    destruct (lookupUser _ _); [|reflexivity].
    destruct (Project.owner p); [|reflexivity].
    destruct (strictNe _ _); [reflexivity|].
    destruct (includes _ _); reflexivity.
Qed.

(** X2: no handler of the controller ever changes the user collection, and
    the three reading handlers leave the whole store as it was. *)
Theorem handlers_frame valid sq newId dflt (req : Request) (d : DB) :
  (forall o, users (after (run (handler valid sq newId dflt o) req d)) = users d)
  /\ after (run (getProjectById valid) req d) = d
  /\ after (run (getAllProjectsOfAUser sq) req d) = d
  /\ after (run (getAllProjects sq) req d) = d.
Proof.
  split; [|split; [|split]].
  - intros o. apply handler_keeps_users.
  - unfold after. rewrite getProjectById_run. cbv zeta.
    destruct (valid _); [|reflexivity]. destruct (lookupProject _ _); reflexivity.
  - unfold after. rewrite getAllProjectsOfAUser_run. reflexivity.
  - unfold after. rewrite getAllProjects_run. reflexivity.
Qed.

(** Where a stored project comes from after one handler run: it was stored
    before under the same id, with the same owner and hour count, or it is
    the document this run of createProject inserted. *)
Lemma project_provenance valid sq newId dflt (o : Op) (req : Request) (d : DB)
  (q : Project.t) :
  In q (projects (after (run (handler valid sq newId dflt o) req d))) ->
  (exists p, In p (projects d)
             /\ Project._id p = Project._id q
             /\ Project.owner p = Project.owner q
             /\ Project.totalHours p = Project.totalHours q)
  \/ (o = CreateProject /\ q = createdDoc newId dflt req d).
Proof.
  assert (Hsame : In q (projects d) ->
    (exists p, In p (projects d) /\ Project._id p = Project._id q
               /\ Project.owner p = Project.owner q
               /\ Project.totalHours p = Project.totalHours q)
    \/ (o = CreateProject /\ q = createdDoc newId dflt req d)).
  { intros H. left. exists q. auto. }
  unfold after. destruct o; cbn [handler].
  - rewrite createProject_run. cbv zeta.
    destruct (firstBlank _) as [[|]|e]; try exact Hsame.
    destruct (find _ _); [exact Hsame|].
    cbn [snd db projects]. rewrite in_app_iff. intros [H|[H|[]]].
    + apply Hsame. exact H.
    + right. split; [reflexivity | symmetry; exact H].
  - rewrite getProjectById_run. cbv zeta.
    destruct (valid _); [|exact Hsame]. destruct (lookupProject _ _); exact Hsame.
  - rewrite getAllProjectsOfAUser_run. exact Hsame.
  - rewrite getAllProjects_run. exact Hsame.
  - rewrite updateProject_run. cbv zeta.
    destruct (hasDetails _); [|exact Hsame].
    destruct (valid _); [|exact Hsame].
    destruct (lookupProject _ _); [|exact Hsame].
    destruct (strictNe _ _); [exact Hsame|].
    cbn [snd db projects]. intros H.
    destruct (In_updateFirst _ _ _ _ H) as [Hin|[p [Hin ->]]].
    + apply Hsame. exact Hin.
    + left. exists p. repeat split. exact Hin.
  - rewrite deleteProject_run. cbv zeta.
    destruct (valid _); [|exact Hsame].
    destruct (lookupProject _ _); [|exact Hsame].
    cbn [snd db projects]. intros H. apply Hsame.
    apply In_removeFirst in H. exact H.
  - rewrite addMembersToProject_run. cbv zeta.
    destruct (negb _ || negb _); [exact Hsame|].
    destruct (lookupProject _ _) as [p|] eqn:Hl; [|exact Hsame].
    destruct (lookupUser _ _); [|exact Hsame].
    destruct (Project.owner p); [|exact Hsame].
    destruct (strictNe _ _); [exact Hsame|].
    destruct (includes _ _); [exact Hsame|].
    cbn [snd db projects]. intros H.
    destruct (In_updateFirst _ _ _ _ H) as [Hin|[x [Hin ->]]].
    + apply Hsame. exact Hin.
    + left. exists p. destruct (lookupProject_In _ _ _ Hl) as [Hp _].
      repeat split. exact Hp.
Qed.

(** X3: totalHours is written once, as 0, by createProject and by nothing
    else: in every store reached from one where all hour counts are 0 (an
    empty project collection, for one), every project has totalHours 0. *)
Theorem totalHours_stays_zero valid sq newId dflt (d0 d : DB) :
  hoursUntouched d0 ->
  reachable valid sq newId dflt d0 d ->
  hoursUntouched d.
Proof.
  unfold hoursUntouched. intros H0 Hr.
  induction Hr as [|d o req Hr IH|d u Hr IH]; [exact H0 | | exact IH].
  apply Forall_forall. intros q Hq.
  destruct (project_provenance _ _ _ _ _ _ _ _ Hq) as [[p [Hin [_ [_ Ht]]]]|[_ ->]].
  - rewrite <- Ht. rewrite Forall_forall in IH. apply IH. exact Hin.
  - reflexivity.
Qed.

Lemma totalHours_stays_zero_witness : hoursUntouched betaWithU2.
Proof.
  apply (totalHours_stays_zero hex24 true sampleNewId VUndefined emptyStore betaWithU2).
  - constructor.
  - unfold betaWithU2, betaStore. do 2 apply reach_handler. apply reach_init.
Defined.

Lemma lookup_notin id ps :
  ~ In id (map Project._id ps) -> lookupProject id ps = None.
Proof.
  induction ps as [|x r IH]; [reflexivity|].
  cbn [map]. intros H. rewrite lookupProject_cons.
  destruct (Project._id x =? id) eqn:E.
  - apply String.eqb_eq in E. exfalso. apply H. left. exact E.
  - apply IH. intros Hin. apply H. right. exact Hin.
Qed.

Lemma lookup_removeFirst_same id ps :
  NoDup (map Project._id ps) -> lookupProject id (removeFirst id ps) = None.
Proof.
  induction ps as [|x r IH]; [reflexivity|].
  cbn [map]. intros H. inversion H as [|a l Hx Hr]; subst.
  rewrite removeFirst_cons. destruct (Project._id x =? id) eqn:E.
  - apply String.eqb_eq in E. subst id. apply lookup_notin. exact Hx.
  - rewrite lookupProject_cons, E. apply IH. exact Hr.
Qed.

Lemma lookup_removeFirst_other id id' ps :
  id' <> id -> lookupProject id' (removeFirst id ps) = lookupProject id' ps.
Proof.
  intros Hne. induction ps as [|x r IH]; [reflexivity|].
  rewrite removeFirst_cons. destruct (Project._id x =? id) eqn:E.
  - rewrite lookupProject_cons. apply String.eqb_eq in E. rewrite E.
    apply not_eq_sym, String.eqb_neq in Hne. rewrite Hne. reflexivity.
  - rewrite !lookupProject_cons. rewrite IH. reflexivity.
Qed.

Lemma lookup_app_found id ps qs p :
  lookupProject id ps = Some p -> lookupProject id (ps ++ qs) = Some p.
Proof.
  induction ps as [|x r IH]; [discriminate|].
  cbn [app]. rewrite !lookupProject_cons.
  destruct (Project._id x =? id); [auto | exact IH].
Qed.

Lemma lookup_app_new id ps q :
  lookupProject id ps = None -> Project._id q = id ->
  lookupProject id (ps ++ [q]) = Some q.
Proof.
  intros H Hq. induction ps as [|x r IH]; cbn [app].
  - rewrite lookupProject_cons, Hq, String.eqb_refl. reflexivity.
  - rewrite lookupProject_cons in *.
    destruct (Project._id x =? id); [discriminate | auto].
Qed.

(** X4: no handler reassigns the owner of a project, and members are
    append-only. In a store whose ids are distinct, a project found under
    an id before a handler run and under the same id after it has the same
    owner and the same hour count; its members are the same too, unless the
    run is an addMembersToProject, which can only append the target user
    at the end. *)
Theorem owner_never_reassigned valid sq newId dflt (o : Op) (req : Request)
  (d : DB) (id : ObjectId) (p q : Project.t) :
  idsDistinct d ->
  lookupProject id (projects d) = Some p ->
  lookupProject id (projects (after (run (handler valid sq newId dflt o) req d)))
    = Some q ->
  Project.owner q = Project.owner p
  /\ Project.totalHours q = Project.totalHours p
  /\ (Project.members q = Project.members p
      \/ (o = AddMembersToProject
          /\ Project.members q
             = (Project.members p ++ [Params.userId (params req)])%list)).
Proof.
  unfold idsDistinct, after. intros Hd Hp.
  assert (Hsame : lookupProject id (projects d) = Some q ->
                  Project.owner q = Project.owner p
                  /\ Project.totalHours q = Project.totalHours p
                  /\ (Project.members q = Project.members p
                      \/ (o = AddMembersToProject
                          /\ Project.members q
                             = (Project.members p
                                ++ [Params.userId (params req)])%list))).
  { rewrite Hp. intros H. injection H as ->. auto. }
  destruct o; cbn [handler].
  - rewrite createProject_run. cbv zeta.
    destruct (firstBlank _) as [[|]|e]; try exact Hsame.
    destruct (find _ _); [exact Hsame|].
    cbn [snd db projects]. rewrite (lookup_app_found _ _ _ _ Hp).
    intros H. injection H as ->. auto.
  - rewrite getProjectById_run. cbv zeta.
    destruct (valid _); [|exact Hsame].
    destruct (lookupProject (Params.projectId (params req)) (projects d));
      exact Hsame.
  - rewrite getAllProjectsOfAUser_run. exact Hsame.
  - rewrite getAllProjects_run. exact Hsame.
  - rewrite updateProject_run. cbv zeta.
    destruct (hasDetails _); [|exact Hsame].
    destruct (valid _); [|exact Hsame].
    destruct (lookupProject (Params.projectId (params req)) (projects d))
      as [x|] eqn:Hl; [|exact Hsame].
    destruct (strictNe _ _); [exact Hsame|].
    cbn [snd db projects].
    destruct (String.eqb_spec id (Params.projectId (params req))) as [->|Hne].
    + destruct (lookupProject_In _ _ _ Hl) as [_ Hid].
      rewrite (lookup_updateFirst_same _ _ _ x Hl) by exact Hid.
      intros H. injection H as <-.
      assert (x = p) by congruence. subst x. auto.
    + rewrite lookup_updateFirst_other; [exact Hsame | exact Hne | reflexivity].
  - rewrite deleteProject_run. cbv zeta.
    destruct (valid _); [|exact Hsame].
    destruct (lookupProject (Params.projectId (params req)) (projects d));
      [|exact Hsame].
    cbn [snd db projects].
    destruct (String.eqb_spec id (Params.projectId (params req))) as [->|Hne].
    + rewrite lookup_removeFirst_same by exact Hd. discriminate.
    + rewrite lookup_removeFirst_other by exact Hne. exact Hsame.
  - rewrite addMembersToProject_run. cbv zeta.
    destruct (negb _ || negb _); [exact Hsame|].
    destruct (lookupProject (Params.projectId (params req)) (projects d))
      as [x|] eqn:Hl; [|exact Hsame].
    destruct (lookupUser _ _); [|exact Hsame].
    destruct (Project.owner x) eqn:Ho; [|exact Hsame].
    destruct (strictNe _ _); [exact Hsame|].
    destruct (includes _ _); [exact Hsame|].
    cbn [snd db projects].
    destruct (lookupProject_In _ _ _ Hl) as [_ Hid].
    destruct (String.eqb_spec id (Params.projectId (params req))) as [->|Hne].
    + rewrite (lookup_updateFirst_same _ (fun _ => pushMember (Params.userId (params req)) x)
                 _ x Hl Hid).
      intros H. injection H as <-.
      assert (x = p) by congruence. subst x.
      split; [reflexivity|]. split; [reflexivity|]. right. split; reflexivity.
    + intros H. apply Hsame. rewrite <- H. symmetry.
      clear H Hsame Hp Hd.
      induction (projects d) as [|y r IH]; [reflexivity|].
      rewrite updateFirst_cons, lookupProject_cons in *.
      destruct (Project._id y =? Params.projectId (params req)) eqn:E.
      * rewrite lookupProject_cons. cbn [pushMember Project._id]. rewrite Hid.
        apply String.eqb_eq in E. rewrite E.
        apply not_eq_sym, String.eqb_neq in Hne. rewrite Hne. reflexivity.
      * rewrite lookupProject_cons. rewrite (IH Hl). reflexivity.
Qed.

Lemma owner_never_reassigned_witness :
  exists q,
    lookupProject idP1
      (projects (after (run (handler hex24 true sampleNewId VUndefined UpdateProject)
                          (updateReq idP1 renameBody (Some U1)) sampleDB))) = Some q
    /\ Project.owner q = Some idU1
    /\ Project.totalHours q = 0%Z
    /\ Project.members q = [idU2].
Proof.
  destruct (owner_never_reassigned hex24 true sampleNewId VUndefined UpdateProject
              (updateReq idP1 renameBody (Some U1)) sampleDB idP1 alpha
              (applySet (SetDoc.mk (VStr "Beta") VUndefined VUndefined VUndefined
                           VUndefined) alpha))
    as (Ho & Ht & Hm).
  - unfold idsDistinct. cbn. constructor.
    + intros [H|[]]. discriminate.
    + constructor; [intros [] | constructor].
  - reflexivity.
  - reflexivity.
  - eexists. split; [reflexivity|]. split; [exact Ho|]. split; [exact Ht|].
    destruct Hm as [Hm|[Hop _]]; [exact Hm | discriminate Hop].
Defined.

Lemma map_id_updateFirst id f ps :
  (forall x, In x ps -> Project._id x = id -> Project._id (f x) = id) ->
  map Project._id (updateFirst id f ps) = map Project._id ps.
Proof.
  induction ps as [|x r IH]; [reflexivity|]. intros Hf.
  rewrite updateFirst_cons. destruct (Project._id x =? id) eqn:E; cbn [map].
  - apply String.eqb_eq in E. rewrite (Hf x (or_introl eq_refl) E), E. reflexivity.
  - rewrite IH; [reflexivity|]. intros y Hy. apply Hf. right. exact Hy.
Qed.

Lemma NoDup_ids_removeFirst id ps :
  NoDup (map Project._id ps) -> NoDup (map Project._id (removeFirst id ps)).
Proof.
  induction ps as [|x r IH]; [intros H; exact H|].
  cbn [map]. intros H. inversion H as [|a l Hx Hr]; subst.
  rewrite removeFirst_cons. destruct (Project._id x =? id); [exact Hr|].
  cbn [map]. constructor; [|apply IH; exact Hr].
  intros Hin. apply Hx. apply in_map_iff in Hin. destruct Hin as [y [Hy Hin]].
  apply in_map_iff. exists y. split; [exact Hy | apply (In_removeFirst id); exact Hin].
Qed.

Lemma includes_notin (x : ObjectId) l : ~ In x l -> includes x l = false.
Proof.
  intros H. destruct (includes x l) eqn:E; [|reflexivity].
  apply includes_In in E. contradiction.
Qed.

(** X5: every handler keeps the ids of the stored projects distinct,
    provided the id the store would give to a new document is not in use;
    only createProject adds an id, and none of the others changes one. *)
Theorem ids_stay_distinct valid sq newId dflt (o : Op) (req : Request) (d : DB) :
  idsDistinct d ->
  ~ In (newId d) (map Project._id (projects d)) ->
  idsDistinct (after (run (handler valid sq newId dflt o) req d)).
Proof.
  unfold idsDistinct, after. intros H Hfresh. destruct o; cbn [handler].
  - rewrite createProject_run. cbv zeta.
    destruct (firstBlank _) as [[|]|e]; try exact H.
    destruct (find _ _); [exact H|].
    cbn [snd db projects]. rewrite map_app. cbn [map Project._id].
    apply NoDup_push; [exact H | apply includes_notin; exact Hfresh].
  - rewrite getProjectById_run. cbv zeta.
    destruct (valid _); [|exact H]. destruct (lookupProject _ _); exact H.
  - rewrite getAllProjectsOfAUser_run. exact H.
  - rewrite getAllProjects_run. exact H.
  - rewrite updateProject_run. cbv zeta.
    destruct (hasDetails _); [|exact H].
    destruct (valid _); [|exact H].
    destruct (lookupProject _ _); [|exact H].
    destruct (strictNe _ _); [exact H|].
    cbn [snd db projects]. rewrite map_id_updateFirst; [exact H|].
    intros x _ Hx. exact Hx.
  - rewrite deleteProject_run. cbv zeta.
    destruct (valid _); [|exact H].
    destruct (lookupProject _ _); [|exact H].
    cbn [snd db projects]. apply NoDup_ids_removeFirst. exact H.
  - rewrite addMembersToProject_run. cbv zeta.
    destruct (negb _ || negb _); [exact H|].
    destruct (lookupProject _ _) as [p|] eqn:Hl; [|exact H].
    destruct (lookupUser _ _); [|exact H].
    destruct (Project.owner p); [|exact H].
    destruct (strictNe _ _); [exact H|].
    destruct (includes _ _); [exact H|].
    cbn [snd db projects]. rewrite map_id_updateFirst; [exact H|].
    intros x _ _. destruct (lookupProject_In _ _ _ Hl) as [_ Hid]. exact Hid.
Qed.

Lemma ids_stay_distinct_witness :
  idsDistinct (after (run (handler hex24 true sampleNewId VUndefined CreateProject)
                        betaReq sampleDB)).
Proof.
  apply (ids_stay_distinct hex24 true sampleNewId VUndefined CreateProject
           betaReq sampleDB).
  - unfold idsDistinct. cbn. constructor.
    + intros [H|[]]. discriminate.
    + constructor; [intros [] | constructor].
  - cbn. intros [H|[H|[]]]; discriminate.
Defined.

(** X6: in a store with distinct ids, a project that deleteProject removed
    is gone: asking for it by id answers 404, deleting it again answers
    404, and every project stored under another id is found as before. *)
Theorem deleted_project_is_gone valid (req : Request) (d : DB) :
  idsDistinct d ->
  succeeded (fst (run (deleteProject valid) req d)) = true ->
  let pid := Params.projectId (params req) in
  let d' := after (run (deleteProject valid) req d) in
  run (getProjectById valid) req d'
    = (Ret (json 404 NoData ProjectNotFound), mkWorld d' [FindById Projects pid])
  /\ run (deleteProject valid) req d'
     = (Ret (json 404 NoData ProjectNotFoundToDelete),
        mkWorld d' [FindByIdAndDelete pid])
  /\ (forall id, id <> pid ->
        lookupProject id (projects d') = lookupProject id (projects d)).
Proof.
  unfold idsDistinct, after. intros Hd. cbv zeta.
  rewrite (deleteProject_run valid req d). cbv zeta.
  destruct (valid (Params.projectId (params req))) eqn:Hv; [|discriminate].
  destruct (lookupProject (Params.projectId (params req)) (projects d))
    as [p|] eqn:Hl; [|discriminate].
  intros _. cbn [snd db].
  rewrite getProjectById_run, deleteProject_run. cbv zeta.
  rewrite Hv. cbn [projects]. rewrite (lookup_removeFirst_same _ _ Hd).
  split; [reflexivity|]. split; [reflexivity|].
  intros id Hne. apply lookup_removeFirst_other. exact Hne.
Qed.

Lemma deleted_project_is_gone_witness :
  run (getProjectById hex24) (getReq idP1 (Some U3))
    (after (run (deleteProject hex24) (getReq idP1 (Some U3)) sampleDB))
  = (Ret (json 404 NoData ProjectNotFound),
     mkWorld (mkDB [gamma] [U1; U2; U3]) [FindById Projects idP1]).
Proof.
  apply (deleted_project_is_gone hex24 (getReq idP1 (Some U3)) sampleDB).
  - unfold idsDistinct. cbn. constructor.
    + intros [H|[]]. discriminate.
    + constructor; [intros [] | constructor].
  - reflexivity.
Defined.

(** X7: a project createProject inserted can be fetched: when the id the
    store gave it is a valid one and was not in use, getProjectById with
    that id, by any caller, answers 200 with the very document the 200
    response of createProject carried. *)
Theorem created_project_can_be_fetched valid sq newId dflt (req : Request)
  (d : DB) (reader : option User.t) :
  succeeded (fst (run (createProject sq newId dflt) req d)) = true ->
  valid (newId d) = true ->
  ~ In (newId d) (map Project._id (projects d)) ->
  let d' := after (run (createProject sq newId dflt) req d) in
  let doc := createdDoc newId dflt req d in
  fst (run (createProject sq newId dflt) req d)
    = Ret (json 200 (OneProject "newProject" doc) ProjectCreated)
  /\ run (getProjectById valid) (getReq (newId d) reader) d'
     = (Ret (json 200 (OneProject "project" doc) ProjectFetched),
        mkWorld d' [FindById Projects (newId d)]).
Proof.
  unfold after. cbv zeta. rewrite createProject_run. cbv zeta.
  destruct (firstBlank _) as [[|]|e]; try discriminate.
  destruct (find _ _); [discriminate|].
  intros _ Hv Hfresh. split; [reflexivity|].
  rewrite getProjectById_run. cbv zeta. cbn [snd db projects getReq params Params.projectId].
  rewrite Hv.
  unfold createdDoc.
  erewrite lookup_app_new;
    [reflexivity | apply lookup_notin; exact Hfresh | reflexivity].
Qed.

Lemma created_project_can_be_fetched_witness :
  run (getProjectById hex24) (getReq idP9 (Some U3))
    (after (run (createProject true sampleNewId VUndefined) betaReq sampleDB))
  = (Ret (json 200 (OneProject "project"
                      (createdDoc sampleNewId VUndefined betaReq sampleDB))
            ProjectFetched),
     mkWorld (after (run (createProject true sampleNewId VUndefined) betaReq sampleDB))
       [FindById Projects idP9]).
Proof.
  apply (created_project_can_be_fetched hex24 true sampleNewId VUndefined betaReq
           sampleDB (Some U3)).
  - reflexivity.
  - reflexivity.
  - cbn. intros [H|[H|[]]]; discriminate.
Defined.

Lemma strictNe_false (a b : option string) : strictNe a b = false <-> a = b.
Proof.
  destruct a as [x|], b as [y|]; simpl; split; intros H; try congruence.
  - apply negb_false_iff, String.eqb_eq in H. congruence.
  - apply negb_false_iff, String.eqb_eq. congruence.
Qed.




(** X9: updateProject answers 200 only when the patch has a non-empty
    field, the id is valid, a project is stored under it and the owner
    recorded in that project equals [req.user?._id] (two undefined values
    count as equal). *)
Theorem update_only_by_owner valid (req : Request) (d : DB) :
  succeeded (fst (run (updateProject valid) req d)) = true ->
  exists p,
    hasDetails (body req) = true
    /\ valid (Params.projectId (params req)) = true
    /\ lookupProject (Params.projectId (params req)) (projects d) = Some p
    /\ Project.owner p = userIdOf req.
Proof.
  rewrite updateProject_run. cbv zeta.
  destruct (hasDetails _); [|discriminate].
  destruct (valid _); [|discriminate].
  destruct (lookupProject _ _) as [p|]; [|discriminate].
  destruct (strictNe _ _) eqn:Hs; [discriminate|].
  intros _. apply strictNe_false in Hs. exists p. repeat split. exact Hs.
Qed.

Lemma update_only_by_owner_witness :
  exists p,
    lookupProject idP1 (projects sampleDB) = Some p
    /\ Project.owner p = Some idU1.
Proof.
  destruct (update_only_by_owner hex24 (updateReq idP1 renameBody (Some U1)) sampleDB)
    as (p & _ & _ & Hl & Ho).
  - reflexivity.
  - exists p. split; [exact Hl | exact Ho].
Defined.

Lemma lookupUser_app id us vs :
  lookupUser id us <> None -> lookupUser id (us ++ vs) <> None.
Proof.
  unfold lookupUser. induction us as [|x r IH]; cbn [app find].
  - intros H. contradiction.
  - destruct (User._id x =? id); [intros _; discriminate | exact IH].
Qed.

Lemma handler_keeps_membersRegistered valid sq newId dflt o req d :
  membersRegistered valid d ->
  membersRegistered valid (after (run (handler valid sq newId dflt o) req d)).
Proof.
  unfold membersRegistered, after. intros H.
  destruct o; cbn [handler].
  - rewrite createProject_run. cbv zeta.
    destruct (firstBlank _) as [[|]|e]; try exact H.
    destruct (find _ _); [exact H|].
    cbn [snd db projects users]. apply Forall_app. split; [exact H|].
    constructor; [constructor | constructor].
  - rewrite getProjectById_run. cbv zeta.
    destruct (valid _); [|exact H]. destruct (lookupProject _ _); exact H.
  - rewrite getAllProjectsOfAUser_run. exact H.
  - rewrite getAllProjects_run. exact H.
  - rewrite updateProject_run. cbv zeta.
    destruct (hasDetails _); [|exact H].
    destruct (valid _); [|exact H].
    destruct (lookupProject _ _); [|exact H].
    destruct (strictNe _ _); [exact H|].
    cbn [snd db projects users]. apply Forall_updateFirst; [exact H|].
    intros x _ Hx. exact Hx.
  - rewrite deleteProject_run. cbv zeta.
    destruct (valid _); [|exact H].
    destruct (lookupProject _ _); [|exact H].
    cbn [snd db projects users]. apply Forall_removeFirst. exact H.
  - rewrite addMembersToProject_run. cbv zeta.
    destruct (valid (Params.projectId (params req))); [|exact H].
    destruct (valid (Params.userId (params req))) eqn:Hu; [|exact H].
    cbn [negb orb].
    destruct (lookupProject _ _) as [p|] eqn:Hl; [|exact H].
    destruct (lookupUser _ _) eqn:Hlu; [|exact H].
    destruct (Project.owner p); [|exact H].
    destruct (strictNe _ _); [exact H|].
    destruct (includes _ _); [exact H|].
    cbn [snd db projects users]. apply Forall_updateFirst; [exact H|].
    intros x _ _. cbn [pushMember Project.members].
    apply Forall_app. split.
    + destruct (lookupProject_In _ _ _ Hl) as [Hin _].
      rewrite Forall_forall in H. apply (H p Hin).
    + constructor; [|constructor]. split; [exact Hu|]. rewrite Hlu. discriminate.
Qed.

(** X10: members are registered users. In every store reached, by the
    handlers and by user registration, from one where this holds (an empty
    project collection, for one), every member of every project is a valid
    id under which a user is stored. *)
Theorem members_are_registered_users valid sq newId dflt (d0 d : DB) :
  membersRegistered valid d0 ->
  reachable valid sq newId dflt d0 d ->
  membersRegistered valid d.
Proof.
  intros H0 Hr. induction Hr as [|d o req Hr IH|d u Hr IH].
  - exact H0.
  - apply handler_keeps_membersRegistered. exact IH.
  - unfold membersRegistered in *. cbn [projects users].
    eapply Forall_impl; [|exact IH]. intros p Hp.
    eapply Forall_impl; [|exact Hp]. intros m [Hv Hm].
    split; [exact Hv | apply lookupUser_app; exact Hm].
Qed.

Lemma members_are_registered_users_witness : membersRegistered hex24 betaWithU2.
Proof.
  apply (members_are_registered_users hex24 true sampleNewId VUndefined
           emptyStore betaWithU2).
  - constructor.
  - unfold betaWithU2, betaStore. do 2 apply reach_handler. apply reach_init.
Defined.

Lemma setPath_idem new old : setPath new (setPath new old) = setPath new old.
Proof. destruct new; reflexivity. Qed.

Lemma applySet_idem s p : applySet s (applySet s p) = applySet s p.
Proof.
  unfold applySet. cbn [Project._id Project.name Project.description
    Project.startDate Project.endDate Project.status Project.totalHours
    Project.owner Project.members].
  rewrite !setPath_idem. reflexivity.
Qed.

Lemma updateFirst_idem id f ps :
  (forall x, Project._id (f x) = Project._id x) ->
  (forall x, f (f x) = f x) ->
  updateFirst id f (updateFirst id f ps) = updateFirst id f ps.
Proof.
  intros Hid Hf. induction ps as [|x r IH]; [reflexivity|].
  rewrite updateFirst_cons. destruct (Project._id x =? id) eqn:E.
  - rewrite updateFirst_cons, Hid, E, Hf. reflexivity.
  - rewrite updateFirst_cons, E, IH. reflexivity.
Qed.

(** X11: updateProject is idempotent: after a successful update the same
    request again answers 200 with the same document and leaves the store
    as the first update left it. *)
Theorem updateProject_idempotent valid (req : Request) (d : DB) :
  succeeded (fst (run (updateProject valid) req d)) = true ->
  let d' := after (run (updateProject valid) req d) in
  fst (run (updateProject valid) req d') = fst (run (updateProject valid) req d)
  /\ after (run (updateProject valid) req d') = d'.
Proof.
  unfold after. cbv zeta. rewrite (updateProject_run valid req d). cbv zeta.
  destruct (hasDetails (body req)) eqn:Hd; [|discriminate].
  destruct (valid (Params.projectId (params req))) eqn:Hv; [|discriminate].
  destruct (lookupProject _ _) as [p|] eqn:Hl; [|discriminate].
  destruct (strictNe _ _) eqn:Hs; [discriminate|].
  intros _. cbn [fst snd db].
  rewrite updateProject_run. cbv zeta. rewrite Hd, Hv. cbn [projects users].
  destruct (lookupProject_In _ _ _ Hl) as [_ Hid].
  rewrite (lookup_updateFirst_same _ _ _ p Hl) by exact Hid.
  cbn [applySet Project.owner]. rewrite Hs. cbn [fst snd db].
  fold (applySet (SetDoc.mk (Body.name (body req)) (Body.description (body req))
                    (Body.startDate (body req)) (Body.endDate (body req))
                    (Body.status (body req))) p).
  rewrite applySet_idem.
  rewrite updateFirst_idem; [split; reflexivity | reflexivity | apply applySet_idem].
Qed.

Lemma updateProject_idempotent_witness :
  after (run (updateProject hex24) (updateReq idP1 renameBody (Some U1))
           (after (run (updateProject hex24) (updateReq idP1 renameBody (Some U1))
                     sampleDB)))
  = after (run (updateProject hex24) (updateReq idP1 renameBody (Some U1)) sampleDB).
Proof.
  apply (updateProject_idempotent hex24 (updateReq idP1 renameBody (Some U1)) sampleDB).
  reflexivity.
Defined.

Lemma NoDup_snoc {A : Type} (l : list A) (x : A) :
  NoDup l -> ~ In x l -> NoDup (l ++ [x]).
Proof.
  intros Hnd Hx. induction Hnd as [|y l Hy Hl IH]; cbn [app].
  - constructor; [intros [] | constructor].
  - constructor.
    + rewrite in_app_iff. intros [H|[H|[]]]; [contradiction|].
      apply Hx. left. symmetry. exact H.
    + apply IH. intros H. apply Hx. right. exact H.
Qed.

Lemma firstBlank_false_name (b : Body.t) :
  firstBlank (requiredFields b) = Ret false -> exists s, Body.name b = VStr s.
Proof.
  unfold requiredFields. cbn [firstBlank].
  destruct (Body.name b); try discriminate. eauto.
Qed.

(** X12: createProject keeps project names distinct: if no two stored
    projects share a name before the call, none do after it, whether the
    call inserted a project or not. *)
Theorem createProject_keeps_names_distinct sq newId dflt (req : Request) (d : DB) :
  namesDistinct d ->
  namesDistinct (after (run (createProject sq newId dflt) req d)).
Proof.
  unfold namesDistinct, after. intros H. rewrite createProject_run. cbv zeta.
  destruct (firstBlank _) as [[|]|e] eqn:E; try exact H.
  destruct (firstBlank_false_name _ E) as [s Hs]. rewrite Hs.
  destruct (find _ _) eqn:Hf; [exact H|].
  cbn [snd db projects]. rewrite map_app. cbn [map Project.name].
  apply NoDup_snoc; [exact H|].
  intros Hin. apply in_map_iff in Hin. destruct Hin as [p [Hn Hp]].
  pose proof (find_none _ _ Hf p Hp) as Hm. rewrite matches_name in Hm.
  rewrite Hn in Hm. rewrite (proj2 (Value_eqb_eq _ _) eq_refl) in Hm. discriminate.
Qed.

Lemma createProject_keeps_names_distinct_witness :
  namesDistinct (after (run (createProject true sampleNewId VUndefined) betaReq sampleDB)).
Proof.
  apply (createProject_keeps_names_distinct true sampleNewId VUndefined betaReq sampleDB).
  unfold namesDistinct. cbn. constructor.
  - intros [H|[]]. discriminate.
  - constructor; [intros [] | constructor].
Defined.

Lemma In_updateFirst_other id f ps (q : Project.t) :
  In q ps -> Project._id q <> id -> In q (updateFirst id f ps).
Proof.
  intros Hin Hne. induction ps as [|x r IH]; [contradiction|].
  rewrite updateFirst_cons. destruct (Project._id x =? id) eqn:E.
  - destruct Hin as [->|Hin].
    + apply String.eqb_eq in E. contradiction.
    + right. exact Hin.
  - destruct Hin as [->|Hin]; [left; reflexivity | right; apply IH; exact Hin].
Qed.

Lemma shared_name_not_distinct (ps : list Project.t) (p q : Project.t) :
  In p ps -> In q ps -> p <> q -> Project.name p = Project.name q ->
  ~ NoDup (map Project.name ps).
Proof.
  intros Hp Hq Hne Hn Hnd. induction ps as [|x r IH]; [contradiction|].
  cbn [map] in Hnd. inversion Hnd as [|a l Hx Hr]; subst.
  destruct Hp as [->|Hp], Hq as [->|Hq].
  - contradiction.
  - apply Hx. rewrite Hn. apply in_map. exact Hq.
  - apply Hx. rewrite <- Hn. apply in_map. exact Hp.
  - apply IH; assumption.
Qed.

(** X13: updateProject does not look at the names of other projects: a
    successful update whose patch carries the name of a project stored
    under another id leaves two projects with that name, so the store no
    longer has distinct names. *)
Theorem updateProject_can_duplicate_name valid (req : Request) (d : DB)
  (n : string) (q : Project.t) :
  succeeded (fst (run (updateProject valid) req d)) = true ->
  Body.name (body req) = VStr n ->
  In q (projects d) ->
  Project._id q <> Params.projectId (params req) ->
  Project.name q = VStr n ->
  ~ namesDistinct (after (run (updateProject valid) req d)).
Proof.
  unfold namesDistinct, after. rewrite updateProject_run. cbv zeta.
  destruct (hasDetails _); [|discriminate].
  destruct (valid _); [|discriminate].
  destruct (lookupProject _ _) as [p|] eqn:Hl; [|discriminate].
  destruct (strictNe _ _); [discriminate|].
  intros _ Hb Hq Hne Hn. cbn [snd db projects].
  destruct (lookupProject_In _ _ _ Hl) as [_ Hid].
  pose proof (lookup_updateFirst_same _
                (applySet (SetDoc.mk (Body.name (body req))
                             (Body.description (body req))
                             (Body.startDate (body req)) (Body.endDate (body req))
                             (Body.status (body req)))) _ p Hl Hid) as Hl'.
  destruct (lookupProject_In _ _ _ Hl') as [Hin' Hid'].
  eapply shared_name_not_distinct.
  - exact Hin'.
  - apply In_updateFirst_other; [exact Hq | exact Hne].
  - intros Heq. apply Hne. rewrite <- Heq. exact Hid'.
  - cbn [applySet Project.name SetDoc.name]. rewrite Hb, Hn. reflexivity.
Qed.

Lemma updateProject_can_duplicate_name_witness :
  namesDistinct sampleDB
  /\ ~ namesDistinct (after (run (updateProject hex24)
                               (updateReq idP1 toGammaBody (Some U1)) sampleDB)).
Proof.
  split.
  - unfold namesDistinct. cbn. constructor.
    + intros [H|[]]. discriminate.
    + constructor; [intros [] | constructor].
  - apply (updateProject_can_duplicate_name hex24
             (updateReq idP1 toGammaBody (Some U1)) sampleDB "Gamma" gamma).
    + reflexivity.
    + reflexivity.
    + right. left. reflexivity.
    + cbn. discriminate.
    + reflexivity.
Defined.

(** X14: once createProject has inserted a project, a further createProject
    with the same name and four non-blank string fields, by any caller, is
    answered with the name-taken conflict and inserts nothing. *)
Theorem createProject_twice sq newId dflt (req again : Request) (d : DB) :
  succeeded (fst (run (createProject sq newId dflt) req d)) = true ->
  Body.name (body again) = Body.name (body req) ->
  forallb nonBlank (requiredFields (body again)) = true ->
  let d' := after (run (createProject sq newId dflt) req d) in
  run (createProject sq newId dflt) again d'
    = (Ret (json 400 NoData ProjectNameExists),
       mkWorld d' [FindOne [("name", Body.name (body again))]]).
Proof.
  unfold after. cbv zeta. rewrite (createProject_run sq newId dflt req d). cbv zeta.
  destruct (firstBlank _) as [[|]|e]; try discriminate.
  destruct (find _ _); [discriminate|].
  intros _ Hn Hnb. cbn [snd db].
  rewrite createProject_run. cbv zeta. rewrite (firstBlank_none _ Hnb).
  destruct (nonBlank_name_string _ Hnb) as [s Hs]. rewrite Hs. cbn [projects].
  destruct (findOne_name_some sq s
              (projects d ++ [createdDoc newId dflt req d])
              (createdDoc newId dflt req d)) as [x Hx].
  - apply in_or_app. right. left. reflexivity.
  - cbn [createdDoc Project.name]. rewrite <- Hn. exact Hs.
  - unfold createdDoc in Hx. rewrite Hx. reflexivity.
Qed.

Lemma createProject_twice_witness :
  run (createProject true sampleNewId VUndefined) betaReq
    (after (run (createProject true sampleNewId VUndefined) betaReq sampleDB))
  = (Ret (json 400 NoData ProjectNameExists),
     mkWorld (after (run (createProject true sampleNewId VUndefined) betaReq sampleDB))
       [FindOne [("name", VStr "Beta")]]).
Proof.
  apply (createProject_twice true sampleNewId VUndefined betaReq betaReq sampleDB);
    reflexivity.
Defined.

(** ** The blank-field check and white space *)






(** ** The reading handlers *)

(** X16: getAllProjectsOfAUser answers every authenticated caller alike:
    for two callers, whoever they are and whatever they own, the responses
    to the same request on the same store are equal. *)
Theorem getAllProjectsOfAUser_same_for_all sq (d : DB) (prm : Params.t)
  (b : Body.t) (u1 u2 : User.t) :
  fst (run (getAllProjectsOfAUser sq) (mkRequest prm b (Some u1)) d)
  = fst (run (getAllProjectsOfAUser sq) (mkRequest prm b (Some u2)) d).
Proof.
  rewrite (getAllProjectsOfAUser_ignores_owner sq (mkRequest prm b (Some u1)) d u1)
    by reflexivity.
  rewrite (getAllProjectsOfAUser_ignores_owner sq (mkRequest prm b (Some u2)) d u2)
    by reflexivity.
  reflexivity.
Qed.

(** X17: getAllProjects answers 200 with the whole project collection in
    stored order, for every store, request and query setting; on an empty
    collection that is 200 with the empty list, never the 400 "No projects
    found!!" of the branch after the query. *)
Theorem getAllProjects_lists_everything sq (req : Request) (d : DB) :
  fst (run (getAllProjects sq) req d)
    = Ret (json 200 (ManyProjects "allProjects" (projects d)) AllProjectsFetched)
  /\ fst (run (getAllProjects sq) req d) <> Ret (json 400 NoData NoProjectsFound).
Proof.
  rewrite getAllProjects_run. split; [reflexivity | discriminate].
Qed.



Lemma firstBlank_throws l e : firstBlank l = Throw e -> e = TypeError.
Proof.
  induction l as [|v r IH]; [discriminate|].
  destruct v; cbn [firstBlank]; try (intros H; injection H as <-; reflexivity).
  destruct (trim s =? ""); [discriminate | exact IH].
Qed.

(** X19: validation comes before persistence: whenever a handler run ends
    in a validation failure (a blank field, an empty patch, an id that is
    not valid), no persistence call has been made and the store is as it
    was. *)
Theorem validation_precedes_persistence valid sq newId dflt (o : Op)
  (req : Request) (d : DB) :
  errorOf (fst (run (handler valid sq newId dflt o) req d)) = Some ValidationError ->
  snd (run (handler valid sq newId dflt o) req d) = mkWorld d [].
Proof.
  destruct o; cbn [handler].
  - rewrite createProject_run. cbv zeta.
    destruct (firstBlank _) as [[|]|e] eqn:E; [reflexivity | |].
    + destruct (find _ _); discriminate.
    + rewrite (firstBlank_throws _ _ E). discriminate.
  - rewrite getProjectById_run. cbv zeta.
    destruct (valid _); [|reflexivity]. destruct (lookupProject _ _); discriminate.
  - rewrite getAllProjectsOfAUser_run. discriminate.
  - rewrite getAllProjects_run. discriminate.
  - rewrite updateProject_run. cbv zeta.
    destruct (hasDetails _); [|reflexivity].
    destruct (valid _); [|discriminate].
    destruct (lookupProject _ _); [|discriminate].
    destruct (strictNe _ _); discriminate.
  - rewrite deleteProject_run. cbv zeta.
    destruct (valid _); [|reflexivity].
    destruct (lookupProject _ _); discriminate.
  - rewrite addMembersToProject_run. cbv zeta.
    destruct (negb _ || negb _); [reflexivity|].
    destruct (lookupProject _ _) as [p|]; [|discriminate].
    destruct (lookupUser _ _); [|discriminate].
    destruct (Project.owner p); [|discriminate].
    destruct (strictNe _ _); [discriminate|].
    destruct (includes _ _); discriminate.
Qed.

Lemma validation_precedes_persistence_witness :
  snd (run (handler hex24 true sampleNewId VUndefined AddMembersToProject)
         (addReq idP1 "nobody" (Some U1)) sampleDB)
  = mkWorld sampleDB [].
Proof.
  apply (validation_precedes_persistence hex24 true sampleNewId VUndefined
           AddMembersToProject (addReq idP1 "nobody" (Some U1)) sampleDB).
  reflexivity.
Defined.
